(** * wtf-lll-wallet: the wallet state store and its connection controller

    A shallow embedding of [src/stores/walletStore] (the zustand store with
    its helpers) and of the event wiring of [src/components/Wallet.tsx],
    followed by the properties stated about them. *)

From Stdlib Require Import String Ascii List ZArith Lia Bool Arith SpecFloat.
Import ListNotations.
Local Open Scope string_scope.

(** ** ECMAScript string primitives used by the store *)

Module JS.

(** [String.prototype.slice(start, end)]: negative positions count from the
    end, both positions are clamped to [0, len], an empty range gives "". *)
Definition slice (s : string) (start : Z) (end_ : option Z) : string :=
  let len := Z.of_nat (String.length s) in
  let from := if (start <? 0)%Z then Z.max (len + start) 0 else Z.min start len in
  let intEnd := match end_ with Some e => e | None => len end in
  let to := if (intEnd <? 0)%Z then Z.max (len + intEnd) 0 else Z.min intEnd len in
  if (from >=? to)%Z then "" else substring (Z.to_nat from) (Z.to_nat (to - from)) s.

(** Truthiness of a string value: only the empty string is falsy. *)
Definition truthy (s : string) : bool :=
  match s with EmptyString => false | String _ _ => true end.

(** Truthiness of [string | null | undefined]. *)
Definition truthy_opt (o : option string) : bool :=
  match o with Some s => truthy s | None => false end.

End JS.

(** ** Pure helpers of the store *)

(** [formatAddress]: template literal over two slices. *)
Definition formatAddress (address : string) : string :=
  JS.slice address 0 (Some 6%Z) ++ "..." ++ JS.slice address (-4) None.

(** The first [n] and the last [n] characters of a string, as the
    specification words them. *)
Definition firstChars (n : nat) (s : string) : string := substring 0 n s.
Definition lastChars (n : nat) (s : string) : string :=
  substring (String.length s - n) n s.

(** ** ECMAScript numbers and their text forms

    A Number is an IEEE 754 binary64 value.  Strings hold one character per
    code unit. *)

Module Num.

Definition Number : Type := spec_float.

Definition prec : Z := 53.
Definition emax : Z := 1024.

(** The Number nearest to [M * 10^p] for an integer [M >= 0] (ties to
    even, overflow to infinity), with the sign [neg]. *)
Definition ofDecimal (M p : Z) (neg : bool) : Number :=
  match M with
  | Z0 => S754_zero neg
  | Zpos m =>
      if (0 <=? p)%Z then
        binary_normalize prec emax (if neg then - (M * 10 ^ p) else M * 10 ^ p)%Z 0 neg
      else
        SFdiv prec emax (S754_finite neg m 0)
                        (S754_finite false (Z.to_pos (10 ^ (- p))) 0)
  | Zneg _ => S754_nan
  end.

(** [StrWhiteSpaceChar] within the Latin-1 range. *)
Definition isWhiteSpace (c : ascii) : bool :=
  let n := nat_of_ascii c in
  ((9 <=? n)%nat && (n <=? 13)%nat) || (n =? 32)%nat || (n =? 160)%nat.

Fixpoint trimStart (s : string) : string :=
  match s with
  | String c rest => if isWhiteSpace c then trimStart rest else s
  | EmptyString => s
  end.

Definition digitOf (c : ascii) : option Z :=
  let n := nat_of_ascii c in
  if (48 <=? n)%nat && (n <=? 57)%nat then Some (Z.of_nat (n - 48)) else None.

(** Reads a run of decimal digits: the number read so far, how many digits
    were read, and the rest of the text. *)
Fixpoint takeDigits (s : string) (acc : Z) (count : nat) : Z * nat * string :=
  match s with
  | String c rest =>
      match digitOf c with
      | Some d => takeDigits rest (acc * 10 + d) (S count)
      | None => (acc, count, s)
      end
  | EmptyString => (acc, count, s)
  end.

(** [ExponentPart]: counted only when at least one digit follows. *)
Definition takeExponent (s : string) : Z :=
  match s with
  | String c rest =>
      if Ascii.eqb c "e" || Ascii.eqb c "E" then
        let '(negative, body) :=
          match rest with
          | String "-" r => (true, r)
          | String "+" r => (false, r)
          | _ => (false, rest)
          end in
        let '(e, n, _) := takeDigits body 0 0 in
        match n with
        | O => 0%Z
        | S _ => if negative then (- e)%Z else e
        end
      else 0%Z
  | EmptyString => 0%Z
  end.

(** [parseFloat]: leading white space is dropped, the longest prefix that
    is a [StrDecimalLiteral] is read, and NaN is returned when there is
    none. *)
Definition parseFloat (s : string) : Number :=
  let t := trimStart s in
  let '(neg, t1) :=
    match t with
    | String "-" r => (true, r)
    | String "+" r => (false, r)
    | _ => (false, t)
    end in
  if prefix "Infinity" t1 then S754_infinity neg
  else
    let '(i, ni, t2) := takeDigits t1 0 0 in
    let '(m, nf, t3) :=
      match t2 with
      | String "." r => takeDigits r i 0
      | _ => (i, O, t2)
      end in
    match (ni + nf)%nat with
    | O => S754_nan
    | S _ => ofDecimal m (takeExponent t3 - Z.of_nat nf) neg
    end.

(** Decimal digits of a non-negative integer, most significant first. *)
Definition digitChar (d : Z) : ascii := ascii_of_nat (48 + Z.to_nat d).

Fixpoint digitsFrom (fuel : nat) (n : Z) (acc : string) : string :=
  match fuel with
  | O => acc
  | S fuel' =>
      let acc' := String (digitChar (n mod 10)) acc in
      if (n <? 10)%Z then acc' else digitsFrom fuel' (n / 10) acc'
  end.

Definition digits (n : Z) : string :=
  digitsFrom (S (Z.to_nat (Z.log2 n))) n "".

Fixpoint zeros (n : nat) : string :=
  match n with
  | O => ""
  | S n' => String "0" (zeros n')
  end.

(** The real value of a positive finite Number [m * 2^e] as a fraction
    (numerator, denominator). *)
Definition exact (m : positive) (e : Z) : Z * Z :=
  if (0 <=? e)%Z then (Z.pos m * 2 ^ e, 1)%Z else (Z.pos m, 2 ^ (- e))%Z.

Definition sameNumber (a b : Number) : bool :=
  match SFcompare a b with Some Eq => true | _ => false end.

(** [Number::toString] for a value [v >= 10^21] (an integer), the only
    finite values [toFixed] hands over to it: the shortest digit string
    that reads back as [x], in exponent notation. *)
Fixpoint shortest (fuel : nat) (k : Z) (n v : Z) (x : Number) : Z * Z :=
  let scale := (10 ^ (n - k))%Z in
  let lo := (v / scale)%Z in
  let hi := (lo + 1)%Z in
  let okLo := sameNumber (ofDecimal lo (n - k) false) x in
  let okHi := sameNumber (ofDecimal hi (n - k) false) x in
  let pick (s : Z) := if (s =? 10 ^ k)%Z then (1, n + 1)%Z else (s, n) in
  match fuel with
  | O => (v, n)
  | S fuel' =>
      if okLo && okHi then
        if (v - lo * scale <=? hi * scale - v)%Z then pick lo else pick hi
      else if okLo then pick lo
      else if okHi then pick hi
      else shortest fuel' (k + 1) n v x
  end.

Definition toStringLarge (v : Z) (x : Number) : string :=
  let n := Z.of_nat (String.length (digits v)) in
  let '(s, n') := shortest 17 1 n v x in
  match digits s with
  | String d EmptyString => String d ("e+" ++ digits (n' - 1))
  | String d more => String d ("." ++ more ++ "e+" ++ digits (n' - 1))
  | EmptyString => ""
  end.

(** Steps 10 and 11 of [Number.prototype.toFixed] below 10^21: the digits
    of [n], padded to at least [f + 1] of them, with a point before the
    last [f]. *)
Definition fixedDigits (n : Z) (f : nat) : string :=
  let m := digits n in
  match f with
  | O => m
  | S _ =>
      let k := String.length m in
      let m' := if (k <=? f)%nat then zeros (f + 1 - k) ++ m else m in
      let k' := String.length m' in
      substring 0 (k' - f) m' ++ "." ++ substring (k' - f) f m'
  end.

(** [Number.prototype.toFixed(f)] for [0 <= f <= 100]. *)
Definition toFixed (x : Number) (f : nat) : string :=
  match x with
  | S754_nan => "NaN"
  | S754_infinity false => "Infinity"
  | S754_infinity true => "-Infinity"
  | S754_zero _ => fixedDigits 0 f
  | S754_finite neg m e =>
      let sign := if neg then "-" else "" in
      let '(num, den) := exact m e in
      if (10 ^ 21 * den <=? num)%Z then sign ++ toStringLarge num (S754_finite false m e)
      else sign ++ fixedDigits ((2 * num * 10 ^ Z.of_nat f + den) / (2 * den)) f
  end.

(** The literal [0.0001]. *)
Definition lit_0_0001 : Number := S754_finite false 7378697629483821 (-66).

(** [a < b] on Numbers. *)
Definition lt (a b : Number) : bool := SFltb a b.

End Num.

(** [formatBalance] *)
Definition formatBalance (balance : string) : string :=
  let num := Num.parseFloat balance in
  if Num.lt num Num.lit_0_0001 then "0" else Num.toFixed num 4.

(** ** Data model *)

Module Network.

Record NativeCurrency := {
  name : string;
  symbol : string;
  decimals : Z
}.

Record NetworkDescriptor := {
  chainId : string;
  chainName : string;
  nativeCurrency : NativeCurrency;
  rpcUrls : list string;
  blockExplorerUrls : list string
}.

(** [keyof typeof NETWORKS] *)
Inductive NetworkKey := ethereum | bsc | sepolia.

Definition NETWORKS (key : NetworkKey) : NetworkDescriptor :=
  match key with
  | ethereum =>
      {| chainId := "0x1";
         chainName := "Ethereum Mainnet";
         nativeCurrency := {| name := "Ether"; symbol := "ETH"; decimals := 18 |};
         rpcUrls := ["https://mainnet.infura.io/v3/"];
         blockExplorerUrls := ["https://etherscan.io/"] |}
  | bsc =>
      {| chainId := "0x38";
         chainName := "Binance Smart Chain";
         nativeCurrency := {| name := "BNB"; symbol := "BNB"; decimals := 18 |};
         rpcUrls := ["https://bsc-dataseed1.binance.org/"];
         blockExplorerUrls := ["https://bscscan.com/"] |}
  | sepolia =>
      {| chainId := "0xaa36a7";
         chainName := "Sepolia Testnet";
         nativeCurrency := {| name := "Sepolia Ether"; symbol := "ETH"; decimals := 18 |};
         rpcUrls := ["https://sepolia.gateway.tenderly.co/";
                     "https://rpc.sepolia.org/";
                     "https://eth-sepolia.public.blastapi.io";
                     "https://sepolia.ethereum.publicnode.com"];
         blockExplorerUrls := ["https://sepolia.etherscan.io/"] |}
  end.

End Network.

Record WalletState := {
  address : option string;
  chainId : option string;
  isConnected : bool;
  balance : string;
  ensName : option string;
  ensAvatar : option string;
  userDisconnected : bool
}.

(** [Partial<WalletState>]: every field may be absent ([None]) or carry a
    value of the field's own type. *)
Record PartialWalletState := {
  address_ : option (option string);
  chainId_ : option (option string);
  isConnected_ : option bool;
  balance_ : option string;
  ensName_ : option (option string);
  ensAvatar_ : option (option string);
  userDisconnected_ : option bool
}.

Definition orKeep {A : Type} (new : option A) (old : A) : A :=
  match new with Some v => v | None => old end.

(** Object spread [{ ...state, ...partial }] restricted to the data fields;
    it is also the shallow merge zustand's [set] performs. *)
Definition spread (state : WalletState) (partial : PartialWalletState) : WalletState :=
  {| address := orKeep (address_ partial) (address state);
     chainId := orKeep (chainId_ partial) (chainId state);
     isConnected := orKeep (isConnected_ partial) (isConnected state);
     balance := orKeep (balance_ partial) (balance state);
     ensName := orKeep (ensName_ partial) (ensName state);
     ensAvatar := orKeep (ensAvatar_ partial) (ensAvatar state);
     userDisconnected := orKeep (userDisconnected_ partial) (userDisconnected state) |}.

(** An object literal that lists all seven fields. *)
Definition allFields (w : WalletState) : PartialWalletState :=
  {| address_ := Some (address w);
     chainId_ := Some (chainId w);
     isConnected_ := Some (isConnected w);
     balance_ := Some (balance w);
     ensName_ := Some (ensName w);
     ensAvatar_ := Some (ensAvatar w);
     userDisconnected_ := Some (userDisconnected w) |}.

(** The state the store is created with. *)
Definition initialState : WalletState :=
  {| address := None; chainId := None; isConnected := false; balance := "0";
     ensName := None; ensAvatar := None; userDisconnected := false |}.

Record EnsInfo := {
  info_ensName : option string;
  info_ensAvatar : option string
}.

(** ** The wallet provider *)

(** A thrown or rejected value that is an object; [code] is what
    [error.code] reads ([None] when the object has no such property).  A
    rejection with [null] or [undefined], on which reading [code] would
    itself throw, is not a value of this type. *)
Record JsError := {
  code : option Z;
  message : string
}.

(** The calls [window.ethereum.request] receives from this package. *)
Inductive Request :=
| eth_requestAccounts
| eth_chainId
| eth_accounts
| wallet_switchEthereumChain (chainId : string)
| wallet_addEthereumChain (network : Network.NetworkDescriptor).

Definition Response (r : Request) : Type :=
  match r with
  | eth_requestAccounts | eth_accounts => list string
  | eth_chainId => string
  | wallet_switchEthereumChain _ | wallet_addEthereumChain _ => unit
  end.

(** What the page observes: provider requests, notices, console output and
    listener registrations, oldest first. *)
Inductive Event :=
| Requested (r : Request)
| Alert (text : string)
| ConsoleError (text : string) (error : JsError)
| ConsoleLog (text : string)
| Listening (eventName : string).

(** A promise settles with a value or a rejection. *)
Inductive Outcome (A : Type) :=
| Returned (a : A)
| Thrown (e : JsError).
Arguments Returned {A} a.
Arguments Thrown {A} e.

Section Store.

(** [World] is the state of everything outside the page (the extension, the
    chain, the user answering prompts); every provider call reads and may
    change it.  [Resolver] is the ENS resolver handle of the client library. *)
Variables World Resolver : Type.

Definition Reply (A : Type) : Type := World -> Outcome A * World.

(** [window.ethereum] together with the client library wrapped around it.
    The library's calls reach the same provider; they are modelled by their
    result and their effect on the world, and only the [request] calls this
    package writes itself are recorded as [Requested] events. *)
Record Ethereum := {
  request : forall r : Request, Reply (Response r);
  provider_getBalance : string -> Reply N;
  provider_lookupAddress : string -> Reply (option string);
  provider_getResolver : string -> Reply (option Resolver);
  resolver_getAvatar : Resolver -> Reply (option string)
}.

(** [ethers.formatEther] and the injected [window.ethereum] (absent when no
    wallet extension is installed). *)
Variable formatEther : N -> string.
Variable ethereum : option Ethereum.

Record Sys := {
  world : World;
  wallet : WalletState;
  trace : list Event
}.

(** Asynchronous code, run to completion without interleaving. *)
Definition M (A : Type) : Type := Sys -> Outcome A * Sys.

Definition ret {A : Type} (a : A) : M A := fun s => (Returned a, s).

Definition throw {A : Type} (e : JsError) : M A := fun s => (Thrown e, s).

Definition bind {A B : Type} (m : M A) (k : A -> M B) : M B :=
  fun s =>
    match m s with
    | (Returned a, s') => k a s'
    | (Thrown e, s') => (Thrown e, s')
    end.

(** [try { body } catch (error) { handler }] *)
Definition tryCatch {A : Type} (body : M A) (handler : JsError -> M A) : M A :=
  fun s =>
    match body s with
    | (Returned a, s') => (Returned a, s')
    | (Thrown e, s') => handler e s'
    end.

Definition emit (ev : Event) : M unit :=
  fun s => (Returned tt,
            {| world := world s; wallet := wallet s; trace := trace s ++ [ev] |}).

(** Awaiting a call on the provider or the client library. *)
Definition await {A : Type} (call : Reply A) : M A :=
  fun s =>
    let (r, w) := call (world s) in
    (r, {| world := w; wallet := wallet s; trace := trace s |}).

(** zustand's [get()] and [set(partial)].  The [persist] middleware also
    copies a projection of the state to local storage on every [set]; that
    copy is not part of the wallet state and is left out. *)
Definition get : M WalletState := fun s => (Returned (wallet s), s).

Definition set (partial : PartialWalletState) : M unit :=
  fun s => (Returned tt,
            {| world := world s; wallet := spread (wallet s) partial; trace := trace s |}).

(** [set((state) => ...)] *)
Definition setWith (f : WalletState -> PartialWalletState) : M unit :=
  fun s => set (f (wallet s)) s.

Notation "x <- m ;; k" := (bind m (fun x => k))
  (at level 61, m at next level, right associativity).
Notation "m ;;; k" := (bind m (fun _ => k))
  (at level 61, right associativity).

(** Reading a property of [undefined], as [window.ethereum!.request] does
    when no provider is injected. *)
Definition TypeError : JsError :=
  {| code := None; message := "TypeError: window.ethereum is undefined" |}.

(** [window.ethereum!.request({ method, params })] *)
Definition ethereum_request (r : Request) : M (Response r) :=
  match ethereum with
  | Some eth => emit (Requested r) ;;; await (request eth r)
  | None => throw TypeError
  end.

Definition isMetaMaskInstalled : bool :=
  match ethereum with Some _ => true | None => false end.

(** [getBalance]: the [return "0"] after the [try] is reached both from
    the [catch] and when no provider is injected. *)
Definition getBalance (address : string) : M string :=
  early <- tryCatch
    (match ethereum with
     | Some eth =>
         balance <- await (provider_getBalance eth address) ;;
         ret (Some (formatEther balance))
     | None => ret None
     end)
    (fun error => emit (ConsoleError "获取余额失败:" error) ;;; ret None) ;;
  match early with
  | Some value => ret value
  | None => ret "0"
  end.

Definition isMainnet (currentChainId : option string) : bool :=
  match currentChainId with
  | Some c => String.eqb c "0x1"
  | None => false
  end.

Definition noEnsInfo : EnsInfo := {| info_ensName := None; info_ensAvatar := None |}.

Definition getENSInfo (address : string) (chainId : option string) : M EnsInfo :=
  early <- tryCatch
    (currentChainId <-
       match ethereum with
       | Some eth =>
           if negb (JS.truthy_opt chainId) then
             tryCatch
               (c <- (emit (Requested eth_chainId) ;;; await (request eth eth_chainId)) ;;
                ret (Some c))
               (fun error => emit (ConsoleError "获取当前网络失败:" error) ;;; ret chainId)
           else ret chainId
       | None => ret chainId
       end ;;
     match ethereum with
     | Some eth =>
         if isMainnet currentChainId then
           ensName <- await (provider_lookupAddress eth address) ;;
           ensAvatar <-
             match ensName with
             | Some name =>
                 if JS.truthy name then
                   tryCatch
                     (resolver <- await (provider_getResolver eth name) ;;
                      match resolver with
                      | Some r => await (resolver_getAvatar eth r)
                      | None => ret None
                      end)
                     (fun error => emit (ConsoleLog "获取 ENS 头像失败:") ;;; ret None)
                 else ret None
             | None => ret None
             end ;;
           ret (Some {| info_ensName := ensName; info_ensAvatar := ensAvatar |})
         else ret None
     | None => ret None
     end)
    (fun error => emit (ConsoleError "获取 ENS 信息失败:" error) ;;; ret None) ;;
  match early with
  | Some info => ret info
  | None => ret noEnsInfo
  end.

(** The object literal both [connectWallet] and [updateWalletState] pass
    to [set]. *)
Definition connected (address chainId balance : string) (info : EnsInfo) : WalletState :=
  {| address := Some address;
     chainId := Some chainId;
     isConnected := true;
     balance := balance;
     ensName := info_ensName info;
     ensAvatar := info_ensAvatar info;
     userDisconnected := false |}.

Definition disconnected : WalletState :=
  {| address := None; chainId := None; isConnected := false; balance := "0";
     ensName := None; ensAvatar := None; userDisconnected := true |}.

(** *** Store operations *)

Definition setWallet (wallet : PartialWalletState) : M unit :=
  setWith (fun state => allFields (spread state wallet)).

Definition resetWallet : M unit := set (allFields initialState).

Definition connectWallet : M unit :=
  if negb isMetaMaskInstalled then
    emit (Alert "请安装 MetaMask 钱包！")
  else
    tryCatch
      (accounts <- ethereum_request eth_requestAccounts ;;
       match accounts with
       | address :: _ =>
           chainId <- ethereum_request eth_chainId ;;
           balance <- getBalance address ;;
           info <- getENSInfo address (Some chainId) ;;
           set (allFields (connected address chainId balance info))
       | [] => ret tt
       end)
      (fun error => emit (ConsoleError "连接钱包失败:" error)).

Definition updateWalletState (address : string) (newChainId : option string) : M unit :=
  tryCatch
    (chainId <-
       match newChainId with
       | Some c => if JS.truthy c then ret c else ethereum_request eth_chainId
       | None => ethereum_request eth_chainId
       end ;;
     balance <- getBalance address ;;
     info <- getENSInfo address (Some chainId) ;;
     set (allFields (connected address chainId balance info)))
    (fun error => emit (ConsoleError "更新钱包状态失败:" error)).

Definition disconnectWallet : M unit := set (allFields disconnected).

(** [const { address } = get(); if (address) await get().updateWalletState(...)] *)
Definition refreshConnected (chainId : string) : M unit :=
  state <- get ;;
  match address state with
  | Some a => if JS.truthy a then updateWalletState a (Some chainId) else ret tt
  | None => ret tt
  end.

Definition codeIs (error : JsError) (n : Z) : bool :=
  match code error with Some c => Z.eqb c n | None => false end.

Definition switchNetwork (networkKey : Network.NetworkKey) : M unit :=
  match ethereum with
  | None => ret tt
  | Some _ =>
      let network := Network.NETWORKS networkKey in
      tryCatch
        (ethereum_request (wallet_switchEthereumChain (Network.chainId network)) ;;;
         refreshConnected (Network.chainId network))
        (fun error =>
           if codeIs error 4902 then
             tryCatch
               (ethereum_request (wallet_addEthereumChain network) ;;;
                refreshConnected (Network.chainId network))
               (fun addError => emit (ConsoleError "添加网络失败:" addError))
           else emit (ConsoleError "切换网络失败:" error))
  end.

(** ** The connection controller ([WalletComponent])

    Its callbacks close over the store fields of the render that created
    them; [snapshot] is that render's view of the store. *)

(** [a === current] for [a : string] and [current : string | null] *)
Definition strictEq (a : string) (current : option string) : bool :=
  match current with Some c => String.eqb a c | None => false end.

Definition handleAccountsChanged (snapshot : WalletState) (accounts : list string) : M unit :=
  emit (ConsoleLog "handleAccountsChanged") ;;;
  match accounts with
  | [] => disconnectWallet
  | first :: _ =>
      if negb (strictEq first (address snapshot)) then updateWalletState first None
      else ret tt
  end.

Definition handleChainChanged (snapshot : WalletState) (newChainId : string) : M unit :=
  emit (ConsoleLog "handleChainChanged") ;;;
  match address snapshot with
  | Some a =>
      if JS.truthy a && negb (strictEq newChainId (chainId snapshot))
      then updateWalletState a (Some newChainId)
      else ret tt
  | None => ret tt
  end.

Definition checkInitialConnection (snapshot : WalletState) : M unit :=
  if userDisconnected snapshot then ret tt
  else if isConnected snapshot then ret tt
  else
    tryCatch
      (accounts <- ethereum_request eth_accounts ;;
       match accounts with
       | first :: _ => updateWalletState first None
       | [] => ret tt
       end)
      (fun error => emit (ConsoleError "检查连接状态失败:" error)).

(** The body of the mount effect ([useEffect(..., [])]). *)
Definition mountEffect (snapshot : WalletState) : M unit :=
  if negb isMetaMaskInstalled then ret tt
  else
    emit (Listening "accountsChanged") ;;;
    emit (Listening "chainChanged") ;;;
    checkInitialConnection snapshot.

(** Mounting renders with the current store and then runs the effect. *)
Definition mount : M unit :=
  snapshot <- get ;;
  mountEffect snapshot.

End Store.

Arguments Sys World : clear implicits.
Arguments M World A : clear implicits.
Arguments Build_Sys {World} world wallet trace.
Arguments world {World} s.
Arguments wallet {World} s.
Arguments trace {World} s.
Arguments ret {World A} a _.
Arguments throw {World A} e _.
Arguments bind {World A B} m k _.
Arguments tryCatch {World A} body handler _.
Arguments emit {World} ev _.
Arguments await {World A} call _.
Arguments get {World} _.
Arguments set {World} partial _.
Arguments setWith {World} f _.
Arguments request {World Resolver} e r _.
Arguments provider_getBalance {World Resolver} e _ _.
Arguments provider_lookupAddress {World Resolver} e _ _.
Arguments provider_getResolver {World Resolver} e _ _.
Arguments resolver_getAvatar {World Resolver} e _ _.
Arguments ethereum_request {World Resolver} ethereum r _.
Arguments isMetaMaskInstalled {World Resolver} ethereum.
Arguments getBalance {World Resolver} formatEther ethereum address _.
Arguments getENSInfo {World Resolver} ethereum address chainId _.
Arguments setWallet {World} wallet _.
Arguments resetWallet {World} _.
Arguments connectWallet {World Resolver} formatEther ethereum _.
Arguments updateWalletState {World Resolver} formatEther ethereum address newChainId _.
Arguments disconnectWallet {World} _.
Arguments refreshConnected {World Resolver} formatEther ethereum chainId _.
Arguments switchNetwork {World Resolver} formatEther ethereum networkKey _.
Arguments handleAccountsChanged {World Resolver} formatEther ethereum snapshot accounts _.
Arguments handleChainChanged {World Resolver} formatEther ethereum snapshot newChainId _.
Arguments checkInitialConnection {World Resolver} formatEther ethereum snapshot _.
Arguments mountEffect {World Resolver} formatEther ethereum snapshot _.
Arguments mount {World Resolver} formatEther ethereum _.

(** ** The rest of the store *)

(** [Object.keys(NETWORKS)], in insertion order. *)
Definition networkKeys : list Network.NetworkKey :=
  [Network.ethereum; Network.bsc; Network.sepolia].

(** [getCurrentNetwork(chainId)]: the first key whose descriptor has this
    chain id. *)
Definition getCurrentNetwork (chainId : option string) : option Network.NetworkDescriptor :=
  match find (fun key => strictEq (Network.chainId (Network.NETWORKS key)) chainId)
             networkKeys with
  | Some networkKey => Some (Network.NETWORKS networkKey)
  | None => None
  end.

(** The store method [getCurrentNetwork: () => getCurrentNetwork(get().chainId)],
    as a function of the state [get()] returns. *)
Definition currentNetwork (state : WalletState) : option Network.NetworkDescriptor :=
  getCurrentNetwork (chainId state).

(** [partialize] of the [persist] options: what is written to local
    storage for a state. *)
Definition partialize (state : WalletState) : WalletState :=
  {| address := if isConnected state then address state else None;
     chainId := if isConnected state then chainId state else None;
     isConnected := isConnected state;
     balance := if isConnected state then balance state else "0";
     ensName := if isConnected state then ensName state else None;
     ensAvatar := if isConnected state then ensAvatar state else None;
     userDisconnected := userDisconnected state |}.

(** ** What the component shows *)

(** [text.split(" ")[0]] *)
Fixpoint firstWord (text : string) : string :=
  match text with
  | String c rest => if Ascii.eqb c " " then "" else String c (firstWord rest)
  | EmptyString => ""
  end.

(** [value || fallback] for [value : string | undefined] *)
Definition orElse (value : option string) (fallback : string) : string :=
  match value with
  | Some v => if JS.truthy v then v else fallback
  | None => fallback
  end.

(** [getCurrentNetwork()?.chainName.split(" ")[0] || "未知网络"] *)
Definition networkLabel (state : WalletState) : string :=
  orElse (option_map (fun network => firstWord (Network.chainName network))
                     (currentNetwork state))
         "未知网络".

(** [getCurrentNetwork()?.nativeCurrency.symbol || "ETH"] *)
Definition currencySymbol (state : WalletState) : string :=
  orElse (option_map (fun network => Network.symbol (Network.nativeCurrency network))
                     (currentNetwork state))
         "ETH".

(** Calling [slice] on [null], as [formatAddress(address!)] does when the
    address is null. *)
Definition NullTypeError : JsError :=
  {| code := None; message := "TypeError: Cannot read properties of null (reading 'slice')" |}.

(** [ensName ? ensName : formatAddress(address!)] *)
Definition displayName (state : WalletState) : Outcome string :=
  let formatted :=
    match address state with
    | Some a => Returned (formatAddress a)
    | None => Thrown NullTypeError
    end in
  match ensName state with
  | Some n => if JS.truthy n then Returned n else formatted
  | None => formatted
  end.

(** [{formatBalance(balance)} {symbol}] *)
Definition balanceText (state : WalletState) : string :=
  formatBalance (balance state) ++ " " ++ currencySymbol state.

(** ** Vocabulary of the specification *)

(** [isConnected == (address != null)] *)
Definition invariant (w : WalletState) : Prop :=
  isConnected w = match address w with Some _ => true | None => false end.

(** A partial record that cannot unbalance the invariant: it leaves both
    [address] and [isConnected] alone, or gives both, in agreement. *)
Definition consistentPartial (p : PartialWalletState) : Prop :=
  match address_ p, isConnected_ p with
  | None, None => True
  | Some a, Some c => c = match a with Some _ => true | None => false end
  | _, _ => False
  end.

(** The wallet state an operation leaves behind. *)
Definition walletAfter {World A : Type} (op : M World A) (s : Sys World) : WalletState :=
  wallet (snd (op s)).

(** The chain id [getENSInfo] decides on, with the world after deciding:
    the argument when one is given (a non-empty string), otherwise the
    provider's live answer, and none when that query fails or there is no
    provider. *)
Definition resolvedChainId {World Resolver : Type}
    (ethereum : option (Ethereum World Resolver))
    (chainId : option string) (w : World) : option string * World :=
  if JS.truthy_opt chainId then (chainId, w)
  else
    match ethereum with
    | Some eth =>
        match request eth eth_chainId w with
        | (Returned c, w') => (Some c, w')
        | (Thrown _, w') => (None, w')
        end
    | None => (None, w)
    end.

(** Events that can raise the provider's permission prompt. *)
Definition prompts (ev : Event) : bool :=
  match ev with
  | Requested eth_requestAccounts => true
  | _ => false
  end.

(** [s'] extends the trace of [s] without any prompting request. *)
Definition unprompted {World : Type} (s s' : Sys World) : Prop :=
  exists evs, trace s' = (trace s ++ evs)%list /\
              forallb (fun ev => negb (prompts ev)) evs = true.

(** [s'] is reached from [s] by provider calls and console output only:
    the wallet is untouched and nothing that prompts the user is asked. *)
Definition quiet {World : Type} (s s' : Sys World) : Prop :=
  wallet s' = wallet s /\ unprompted s s'.

(** *** Fixed notation *)

Definition isDigit (c : ascii) : bool :=
  match Num.digitOf c with Some _ => true | None => false end.

Fixpoint allDigits (s : string) : bool :=
  match s with
  | String c rest => isDigit c && allDigits rest
  | EmptyString => true
  end.

(** The number a string of decimal digits denotes. *)
Fixpoint decimalValue (s : string) : Z :=
  match s with
  | String c rest =>
      (match Num.digitOf c with Some d => d | None => 0 end) * 10 ^ Z.of_nat (String.length rest)
      + decimalValue rest
  | EmptyString => 0
  end%Z.

(** [out] is the value [num / den] written with exactly four decimal
    places: digits, a point, four digits, denoting the multiple of 0.0001
    nearest to the value. *)
Definition fixedTo4 (out : string) (num den : Z) : Prop :=
  exists whole frac,
    out = whole ++ "." ++ frac /\
    whole <> "" /\ allDigits whole = true /\
    String.length frac = 4 /\ allDigits frac = true /\
    (2 * Z.abs (decimalValue (whole ++ frac) * den - num * 10 ^ 4) <= den)%Z.

(** *** Further vocabulary *)

Definition isRequest (ev : Event) : bool :=
  match ev with Requested _ => true | _ => false end.

Definition isConsole (ev : Event) : bool :=
  match ev with ConsoleError _ _ | ConsoleLog _ => true | _ => false end.

(** [s'] extends the trace of [s] by events that all satisfy [allowed]. *)
Definition traceAdds {World : Type} (allowed : Event -> bool) (s s' : Sys World) : Prop :=
  exists evs, trace s' = (trace s ++ evs)%list /\ forallb allowed evs = true.

(** ENS data is present only on mainnet. *)
Definition ensOnlyOnMainnet (w : WalletState) : Prop :=
  (ensName w <> None \/ ensAvatar w <> None) -> chainId w = Some "0x1".

(** A connected wallet has not opted out. *)
Definition connectedNotOptedOut (w : WalletState) : Prop :=
  isConnected w = true -> userDisconnected w = false.

(** The merge of two partial records, [later] winning. *)
Definition overlay (earlier later : PartialWalletState) : PartialWalletState :=
  {| address_ := match address_ later with Some v => Some v | None => address_ earlier end;
     chainId_ := match chainId_ later with Some v => Some v | None => chainId_ earlier end;
     isConnected_ :=
       match isConnected_ later with Some v => Some v | None => isConnected_ earlier end;
     balance_ := match balance_ later with Some v => Some v | None => balance_ earlier end;
     ensName_ := match ensName_ later with Some v => Some v | None => ensName_ earlier end;
     ensAvatar_ :=
       match ensAvatar_ later with Some v => Some v | None => ensAvatar_ earlier end;
     userDisconnected_ :=
       match userDisconnected_ later with
       | Some v => Some v
       | None => userDisconnected_ earlier
       end |}.

Definition noFields : PartialWalletState :=
  {| address_ := None; chainId_ := None; isConnected_ := None; balance_ := None;
     ensName_ := None; ensAvatar_ := None; userDisconnected_ := None |}.

(** The provider never answers [eth_chainId] with the empty string. *)
Definition answersChainIds {World Resolver : Type}
    (ethereum : option (Ethereum World Resolver)) : Prop :=
  forall eth w c w',
    ethereum = Some eth ->
    request eth eth_chainId w = (Returned c, w') -> JS.truthy c = true.

(** [out] is in exponent notation for a value of 10^21 or more: one
    digit, an optional point with further digits, "e+", and a decimal
    exponent of at least 21. *)
Definition exponentNotation (out : string) : Prop :=
  exists d frac ex,
    out = String d (frac ++ "e+" ++ ex) /\
    isDigit d = true /\
    (frac = "" \/ exists ds, frac = "." ++ ds /\ ds <> "" /\ allDigits ds = true) /\
    allDigits ex = true /\ (21 <= decimalValue ex)%Z.

(** ** Sample inputs *)

Module Sample.

(** A partial record that sets [isConnected] alone. *)
Definition onlyConnected : PartialWalletState :=
  {| address_ := None; chainId_ := None; isConnected_ := Some true;
     balance_ := None; ensName_ := None; ensAvatar_ := None;
     userDisconnected_ := None |}.

(** A partial record that gives address and flag together. *)
Definition bothFields : PartialWalletState :=
  {| address_ := Some (Some "0xabc"); chainId_ := None; isConnected_ := Some true;
     balance_ := None; ensName_ := None; ensAvatar_ := None;
     userDisconnected_ := None |}.

(** What a scripted provider answers to each kind of call. *)
Record Script := {
  onRequestAccounts : Outcome (list string);
  onChainId : Outcome string;
  onAccounts : Outcome (list string);
  onSwitch : Outcome unit;
  onAdd : Outcome unit;
  onGetBalance : Outcome N;
  onLookupAddress : Outcome (option string);
  onGetResolver : Outcome (option unit);
  onGetAvatar : Outcome (option string)
}.

(** The world of a scripted provider counts the calls it has answered. *)
Definition scripted (sc : Script) : Ethereum nat unit :=
  {| request := fun r w =>
       (match r return Outcome (Response r) with
        | eth_requestAccounts => onRequestAccounts sc
        | eth_chainId => onChainId sc
        | eth_accounts => onAccounts sc
        | wallet_switchEthereumChain _ => onSwitch sc
        | wallet_addEthereumChain _ => onAdd sc
        end, S w);
     provider_getBalance := fun _ w => (onGetBalance sc, S w);
     provider_lookupAddress := fun _ w => (onLookupAddress sc, S w);
     provider_getResolver := fun _ w => (onGetResolver sc, S w);
     resolver_getAvatar := fun _ w => (onGetAvatar sc, S w) |}.

Definition rejected (c : Z) : JsError := {| code := Some c; message := "rejected" |}.

(** Everything is granted; mainnet, with an ENS name and avatar. *)
Definition granting : Script :=
  {| onRequestAccounts := Returned ["0xabc"; "0xdef"];
     onChainId := Returned "0x1";
     onAccounts := Returned ["0xabc"];
     onSwitch := Returned tt;
     onAdd := Returned tt;
     onGetBalance := Returned 1500000000000000000%N;
     onLookupAddress := Returned (Some "alice.eth");
     onGetResolver := Returned (Some tt);
     onGetAvatar := Returned (Some "https://example.org/a.png") |}.

(** The user declines the permission prompt. *)
Definition declining : Script :=
  {| onRequestAccounts := Thrown (rejected 4001);
     onChainId := Returned "0x1";
     onAccounts := Returned [];
     onSwitch := Thrown (rejected 4001);
     onAdd := Thrown (rejected 4001);
     onGetBalance := Returned 0%N;
     onLookupAddress := Returned None;
     onGetResolver := Returned None;
     onGetAvatar := Returned None |}.

(** The target chain is unknown to the wallet, which accepts adding it. *)
Definition unknownChain : Script :=
  {| onRequestAccounts := Returned ["0xabc"];
     onChainId := Returned "0x1";
     onAccounts := Returned ["0xabc"];
     onSwitch := Thrown (rejected 4902);
     onAdd := Returned tt;
     onGetBalance := Returned 7%N;
     onLookupAddress := Returned None;
     onGetResolver := Returned None;
     onGetAvatar := Returned None |}.

(** One wei-to-text rendering to run the store with. *)
Definition weiText (wei : N) : string := Num.digits (Z.of_N wei) ++ " wei".

Definition fresh : Sys nat := Build_Sys 0 initialState [].

Definition connectedAs (a : string) : WalletState :=
  {| address := Some a; chainId := Some "0x1"; isConnected := true; balance := "1.5";
     ensName := None; ensAvatar := None; userDisconnected := false |}.

Definition optedOut : Sys nat :=
  Build_Sys 0
    {| address := None; chainId := None; isConnected := false; balance := "0";
       ensName := None; ensAvatar := None; userDisconnected := true |} [].

End Sample.

(** ** Further sample inputs *)

Module Scenario.

(** The chain is unknown and the user refuses to add it. *)
Definition refusingAdd : Sample.Script :=
  {| Sample.onRequestAccounts := Returned ["0xabc"];
     Sample.onChainId := Returned "0x1";
     Sample.onAccounts := Returned ["0xabc"];
     Sample.onSwitch := Thrown (Sample.rejected 4902);
     Sample.onAdd := Thrown (Sample.rejected 4001);
     Sample.onGetBalance := Returned 7%N;
     Sample.onLookupAddress := Returned None;
     Sample.onGetResolver := Returned None;
     Sample.onGetAvatar := Returned None |}.

(** A locked wallet: it answers, with no accounts. *)
Definition noAccounts : Sample.Script :=
  {| Sample.onRequestAccounts := Returned [];
     Sample.onChainId := Returned "0x1";
     Sample.onAccounts := Returned [];
     Sample.onSwitch := Returned tt;
     Sample.onAdd := Returned tt;
     Sample.onGetBalance := Returned 0%N;
     Sample.onLookupAddress := Returned None;
     Sample.onGetResolver := Returned None;
     Sample.onGetAvatar := Returned None |}.

(** Every query fails with an internal error. *)
Definition offline : Sample.Script :=
  {| Sample.onRequestAccounts := Thrown (Sample.rejected (-32603));
     Sample.onChainId := Thrown (Sample.rejected (-32603));
     Sample.onAccounts := Thrown (Sample.rejected (-32603));
     Sample.onSwitch := Thrown (Sample.rejected (-32603));
     Sample.onAdd := Thrown (Sample.rejected (-32603));
     Sample.onGetBalance := Thrown (Sample.rejected (-32603));
     Sample.onLookupAddress := Thrown (Sample.rejected (-32603));
     Sample.onGetResolver := Thrown (Sample.rejected (-32603));
     Sample.onGetAvatar := Thrown (Sample.rejected (-32603)) |}.

Definition connectedSys : Sys nat := Build_Sys 0 (Sample.connectedAs "0xabc") [].

End Scenario.

(** * Properties *)

(** ** Proof steps for the store monad *)

Ltac run := unfold bind, tryCatch, await, emit, ret, throw; simpl.

Ltac solve_quiet :=
  split; [reflexivity|]; unfold unprompted; simpl;
  first [ exists []; split; [now rewrite app_nil_r | reflexivity]
        | eexists; split; [rewrite <- ?app_assoc; reflexivity | reflexivity] ].

Ltac done_quiet := eexists _, _; split; [reflexivity | solve_quiet].

Ltac logged :=
  unfold unprompted, traceAdds; eexists;
  split; [cbn [trace]; rewrite <- ?app_assoc; reflexivity | reflexivity].

Ltac then_logged Hu :=
  let evs := fresh "evs" in
  let Ht := fresh "Ht" in
  let Hp := fresh "Hp" in
  destruct Hu as (evs & Ht & Hp);
  unfold unprompted, traceAdds; eexists;
  split; [rewrite Ht; cbn [trace]; rewrite <- ?app_assoc; reflexivity | simpl; exact Hp].

(** ** Facts about substrings *)

Lemma substring_length (s : string) (n m : nat) :
  n + m <= String.length s -> String.length (substring n m s) = m.
Proof.
  revert n m; induction s as [|c s IH]; intros n m H; simpl in *.
  - assert (n = 0 /\ m = 0) as [-> ->] by lia. reflexivity.
  - destruct n as [|n].
    + destruct m as [|m]; simpl; [reflexivity|].
      rewrite IH by lia. reflexivity.
    + apply IH. lia.
Qed.

Lemma append_length (a b : string) :
  String.length (a ++ b) = String.length a + String.length b.
Proof. induction a as [|c a IH]; simpl; [reflexivity | now rewrite IH]. Qed.

Lemma substring_zero_r (s : string) (n : nat) : substring n 0 s = "".
Proof.
  revert n; induction s as [|c s IH]; intros [|n]; simpl; auto.
Qed.

Lemma slice_prefix (s : string) (k : nat) :
  JS.slice s 0 (Some (Z.of_nat k)) = firstChars (Nat.min k (String.length s)) s.
Proof.
  unfold JS.slice, firstChars.
  change (0 <? 0)%Z with false. cbv iota.
  destruct (Z.ltb_spec (Z.of_nat k) 0) as [Hneg|_]; [lia|].
  rewrite (Z.min_l 0) by lia.
  destruct (Z.geb_spec 0 (Z.min (Z.of_nat k) (Z.of_nat (String.length s)))) as [Hge|Hlt].
  - assert (Nat.min k (String.length s) = 0) as -> by lia.
    now rewrite substring_zero_r.
  - f_equal. lia.
Qed.

Lemma slice_suffix (s : string) (k : nat) :
  0 < k ->
  JS.slice s (- Z.of_nat k) None = lastChars (Nat.min k (String.length s)) s.
Proof.
  intros Hk. unfold JS.slice, lastChars.
  destruct (Z.ltb_spec (- Z.of_nat k) 0) as [_|Hn]; [|lia].
  destruct (Z.ltb_spec (Z.of_nat (String.length s)) 0) as [Hneg|_]; [lia|].
  rewrite Z.min_id.
  destruct (Z.geb_spec (Z.max (Z.of_nat (String.length s) + - Z.of_nat k) 0)
                       (Z.of_nat (String.length s))) as [Hge|Hlt].
  - assert (Nat.min k (String.length s) = 0) as -> by lia.
    now rewrite substring_zero_r.
  - f_equal; lia.
Qed.

(** ** Running the store *)

Section StoreFacts.

Context {World Resolver : Type}.
Variable formatEther : N -> string.
Variable ethereum : option (Ethereum World Resolver).

Lemma quiet_refl (s : Sys World) : quiet s s.
Proof. split; [reflexivity|]. exists []. now rewrite app_nil_r. Qed.

Lemma quiet_trans (s1 s2 s3 : Sys World) : quiet s1 s2 -> quiet s2 s3 -> quiet s1 s3.
Proof.
  intros [Hw1 (e1 & Ht1 & Hq1)] [Hw2 (e2 & Ht2 & Hq2)]. split; [congruence|].
  exists (e1 ++ e2)%list. rewrite Ht2, Ht1, app_assoc. split; [reflexivity|].
  rewrite forallb_app, Hq1, Hq2. reflexivity.
Qed.

Lemma quiet_world (s : Sys World) w : quiet s (Build_Sys w (wallet s) (trace s)).
Proof. split; [reflexivity|]. exists []. simpl. now rewrite app_nil_r. Qed.

Lemma quiet_emit (s : Sys World) w ev :
  prompts ev = false -> quiet s (Build_Sys w (wallet s) (trace s ++ [ev])%list).
Proof. intros H. split; [reflexivity|]. exists [ev]. simpl. now rewrite H. Qed.

Lemma getBalance_returns addr s :
  exists v s', getBalance formatEther ethereum addr s = (Returned v, s') /\ quiet s s'.
Proof.
  unfold getBalance, bind, tryCatch, await, emit, ret.
  destruct ethereum as [eth|]; simpl.
  - destruct (provider_getBalance eth addr (world s)) as [[b|e] w]; simpl.
    + eexists _, _. split; [reflexivity|]. apply quiet_world.
    + eexists _, _. split; [reflexivity|]. now apply quiet_emit.
  - destruct s. eexists _, _. split; [reflexivity|]. apply quiet_refl.
Qed.

Lemma getENSInfo_returns addr cid s :
  exists info s', getENSInfo ethereum addr cid s = (Returned info, s') /\ quiet s s'.
Proof.
  unfold getENSInfo. run.
  destruct ethereum as [eth|]; simpl.
  2:{ destruct s; done_quiet. }
  destruct (JS.truthy_opt cid); simpl.
  - destruct (isMainnet cid); simpl; [|destruct s; done_quiet].
    destruct (provider_lookupAddress eth addr (world s)) as [[[name|]|e] w]; simpl;
      try done_quiet.
    destruct (JS.truthy name); simpl; [|done_quiet].
    destruct (provider_getResolver eth name w) as [[[r|]|e] w']; simpl; try done_quiet.
    destruct (resolver_getAvatar eth r w') as [[av|e] w'']; simpl; done_quiet.
  - destruct (request eth eth_chainId (world s)) as [[c|e] w0]; simpl.
    + destruct (String.eqb c "0x1"); simpl; [|done_quiet].
      destruct (provider_lookupAddress eth addr w0) as [[[name|]|e] w]; simpl;
        try done_quiet.
      * destruct (JS.truthy name); simpl; [|done_quiet].
        destruct (provider_getResolver eth name w) as [[[r|]|e] w']; simpl; try done_quiet.
        destruct (resolver_getAvatar eth r w') as [[av|e] w'']; simpl; done_quiet.
    + destruct (isMainnet cid); simpl; try done_quiet.
      destruct (provider_lookupAddress eth addr w0) as [[[name|]|e'] w]; simpl;
        try done_quiet.
      destruct (JS.truthy name); simpl; [|done_quiet].
      destruct (provider_getResolver eth name w) as [[[r|]|e'] w']; simpl; try done_quiet.
      destruct (resolver_getAvatar eth r w') as [[av|e'] w'']; simpl; done_quiet.
Qed.

Lemma spread_allFields (state w : WalletState) : spread state (allFields w) = w.
Proof. destruct w; reflexivity. Qed.

Lemma set_allFields (w : WalletState) (s : Sys World) :
  set (allFields w) s = (Returned tt, Build_Sys (world s) w (trace s)).
Proof. unfold set. now rewrite spread_allFields. Qed.

Lemma quiet_unprompted (s s' : Sys World) : quiet s s' -> unprompted s s'.
Proof. now intros [_ H]. Qed.

Lemma unprompted_trans (s1 s2 s3 : Sys World) : unprompted s1 s2 -> unprompted s2 s3 -> unprompted s1 s3.
Proof.
  intros (e1 & Ht1 & Hq1) (e2 & Ht2 & Hq2).
  exists (e1 ++ e2)%list. rewrite Ht2, Ht1, app_assoc. split; [reflexivity|].
  rewrite forallb_app, Hq1, Hq2. reflexivity.
Qed.

(** The common tail of [connectWallet] and [updateWalletState]: balance,
    ENS data, then the single write. *)
Lemma fetch_and_set addr c s :
  exists b i s',
    bind (getBalance formatEther ethereum addr) (fun balance =>
      bind (getENSInfo ethereum addr (Some c)) (fun info =>
        set (allFields (connected addr c balance info)))) s = (Returned tt, s') /\
    wallet s' = connected addr c b i /\ unprompted s s'.
Proof.
  unfold bind.
  destruct (getBalance_returns addr s) as (b & s1 & -> & Hq1).
  destruct (getENSInfo_returns addr (Some c) s1) as (i & s2 & -> & Hq2).
  rewrite set_allFields. exists b, i. eexists. split; [reflexivity|]. split; [reflexivity|].
  apply quiet_unprompted in Hq1, Hq2.
  destruct Hq1 as (e1 & Ht1 & Hp1), Hq2 as (e2 & Ht2 & Hp2).
  exists (e1 ++ e2)%list. simpl. rewrite Ht2, Ht1, app_assoc. split; [reflexivity|].
  rewrite forallb_app, Hp1, Hp2. reflexivity.
Qed.

Lemma unprompted_emit (s : Sys World) w wl ev :
  prompts ev = false -> unprompted s (Build_Sys w wl (trace s ++ [ev])%list).
Proof. intros H. exists [ev]. simpl. now rewrite H. Qed.

Lemma unprompted_refl (s : Sys World) : unprompted s s.
Proof. exists []. now rewrite app_nil_r. Qed.

Lemma bind_unfold {A B : Type} (m : M World A) (k : A -> M World B) s :
  bind m k s =
  match m s with
  | (Returned a, s') => k a s'
  | (Thrown e, s') => (Thrown e, s')
  end.
Proof. reflexivity. Qed.

Lemma ethereum_cases : (exists eth, ethereum = Some eth) \/ ethereum = None.
Proof. destruct ethereum; eauto. Qed.

Lemma ethereum_request_some eth r s :
  ethereum = Some eth ->
  ethereum_request ethereum r s =
  (fst (request eth r (world s)),
   Build_Sys (snd (request eth r (world s))) (wallet s) (trace s ++ [Requested r])).
Proof.
  intros ->. unfold ethereum_request. run. now destruct (request eth r (world s)).
Qed.

Lemma ethereum_request_none r s :
  ethereum = None -> ethereum_request ethereum r s = (Thrown TypeError, s).
Proof. intros ->. reflexivity. Qed.

(** What a finished [updateWalletState] leaves: it never throws, writes
    either nothing or all seven fields at once, and never prompts. *)
Lemma updateWalletState_run addr newChainId s :
  exists s',
    updateWalletState formatEther ethereum addr newChainId s = (Returned tt, s') /\
    (wallet s' = wallet s \/ exists c b i, wallet s' = connected addr c b i) /\
    unprompted s s'.
Proof.
  unfold updateWalletState, tryCatch.
  set (k := fun chainId : string =>
    bind (getBalance formatEther ethereum addr) (fun balance =>
      bind (getENSInfo ethereum addr (Some chainId)) (fun info =>
        set (allFields (connected addr chainId balance info))))).
  assert (Hk : forall c s0, exists s',
    k c s0 = (Returned tt, s') /\
    (exists c b i, wallet s' = connected addr c b i) /\ unprompted s0 s').
  { intros c s0. destruct (fetch_and_set addr c s0) as (b & i & s' & Hrun & Hw & Hu).
    exists s'. split; [exact Hrun|]. split; [now exists c, b, i | exact Hu]. }
  assert (Hquery :
    (exists s',
      @bind World string unit (ethereum_request ethereum eth_chainId) k s = (Returned tt, s')
      /\ (exists c b i, wallet s' = connected addr c b i) /\ unprompted s s')
    \/ exists e s1,
      @bind World string unit (ethereum_request ethereum eth_chainId) k s = (Thrown e, s1)
      /\ wallet s1 = wallet s /\ unprompted s s1).
  { rewrite bind_unfold.
    destruct ethereum_cases as [[eth Heth]|Heth].
    - rewrite (ethereum_request_some eth _ _ Heth).
      destruct (request eth eth_chainId (world s)) as [[c|e] w]; simpl.
      + destruct (Hk c (Build_Sys w (wallet s) (trace s ++ [Requested eth_chainId])))
          as (s' & Hrun & Hw & Hu).
        left. exists s'. split; [exact Hrun|]. split; [exact Hw|].
        eapply unprompted_trans; [|exact Hu]. now apply unprompted_emit.
      + right. eexists _, _. split; [reflexivity|]. split; [reflexivity|].
        now apply unprompted_emit.
    - rewrite (ethereum_request_none _ _ Heth).
      right. eexists _, _. split; [reflexivity|]. split; [reflexivity|].
      apply unprompted_refl. }
  assert (Hfail : forall e s1, wallet s1 = wallet s -> unprompted s s1 ->
    exists s', emit (ConsoleError "更新钱包状态失败:" e) s1 = (Returned tt, s') /\
               (wallet s' = wallet s \/ exists c b i, wallet s' = connected addr c b i) /\
               unprompted s s').
  { intros e s1 Hw Hu. eexists. split; [reflexivity|]. split; [now left|].
    eapply unprompted_trans; [exact Hu|]. now apply unprompted_emit. }
  destruct newChainId as [c|].
  - destruct (JS.truthy c).
    + rewrite bind_unfold. unfold ret at 1.
      destruct (Hk c s) as (s' & -> & Hw & Hu). exists s'. auto.
    + destruct Hquery as [(s' & -> & Hw & Hu) | (e & s1 & -> & Hw & Hu)].
      * exists s'. auto.
      * now apply Hfail.
  - destruct Hquery as [(s' & -> & Hw & Hu) | (e & s1 & -> & Hw & Hu)].
    + exists s'. auto.
    + now apply Hfail.
Qed.

Lemma isMetaMaskInstalled_some eth :
  ethereum = Some eth -> isMetaMaskInstalled ethereum = true.
Proof. now intros ->. Qed.

Lemma isMetaMaskInstalled_none :
  ethereum = None -> isMetaMaskInstalled ethereum = false.
Proof. now intros ->. Qed.

(** [connectWallet] never throws, and writes either nothing or the whole
    record of a connected wallet. *)
Lemma connectWallet_run s :
  exists s',
    connectWallet formatEther ethereum s = (Returned tt, s') /\
    (wallet s' = wallet s \/ exists a c b i, wallet s' = connected a c b i).
Proof.
  unfold connectWallet.
  destruct ethereum_cases as [[eth Heth]|Heth].
  - rewrite (isMetaMaskInstalled_some eth Heth). simpl.
    unfold tryCatch. rewrite bind_unfold, (ethereum_request_some eth _ _ Heth).
    destruct (request eth eth_requestAccounts (world s)) as [[[|a rest]|e] w]; simpl.
    + eexists. split; [reflexivity|]. now left.
    + rewrite bind_unfold, (ethereum_request_some eth _ _ Heth). simpl.
      destruct (request eth eth_chainId w) as [[c|e] w']; simpl.
      * destruct (fetch_and_set a c
          (Build_Sys w' (wallet s)
             ((trace s ++ [Requested eth_requestAccounts]) ++ [Requested eth_chainId])))
          as (b & i & s' & -> & Hw & _).
        exists s'. split; [reflexivity|]. right. now exists a, c, b, i.
      * eexists. split; [reflexivity|]. now left.
    + eexists. split; [reflexivity|]. now left.
  - rewrite (isMetaMaskInstalled_none Heth). simpl.
    eexists. split; [reflexivity|]. now left.
Qed.

Lemma connectWallet_accounts_rejected eth s e w :
  ethereum = Some eth ->
  request eth eth_requestAccounts (world s) = (Thrown e, w) ->
  walletAfter (connectWallet formatEther ethereum) s = wallet s.
Proof.
  intros Heth Hreq. unfold walletAfter, connectWallet.
  rewrite (isMetaMaskInstalled_some eth Heth). simpl.
  unfold tryCatch. rewrite bind_unfold, (ethereum_request_some eth _ _ Heth), Hreq.
  reflexivity.
Qed.

Lemma connectWallet_chainId_rejected eth s accounts w e w' :
  ethereum = Some eth ->
  request eth eth_requestAccounts (world s) = (Returned accounts, w) ->
  request eth eth_chainId w = (Thrown e, w') ->
  walletAfter (connectWallet formatEther ethereum) s = wallet s.
Proof.
  intros Heth Hreq Hchain. unfold walletAfter, connectWallet.
  rewrite (isMetaMaskInstalled_some eth Heth). simpl.
  unfold tryCatch. rewrite bind_unfold, (ethereum_request_some eth _ _ Heth), Hreq.
  simpl. destruct accounts as [|a rest]; [reflexivity|].
  rewrite bind_unfold, (ethereum_request_some eth _ _ Heth). simpl.
  rewrite Hchain. reflexivity.
Qed.

Lemma connectWallet_connects eth s first rest w c w' :
  ethereum = Some eth ->
  request eth eth_requestAccounts (world s) = (Returned (first :: rest), w) ->
  request eth eth_chainId w = (Returned c, w') ->
  exists b i s',
    connectWallet formatEther ethereum s = (Returned tt, s') /\
    wallet s' = connected first c b i.
Proof.
  intros Heth Hreq Hchain. unfold connectWallet.
  rewrite (isMetaMaskInstalled_some eth Heth). simpl.
  unfold tryCatch. rewrite bind_unfold, (ethereum_request_some eth _ _ Heth), Hreq.
  simpl. rewrite bind_unfold, (ethereum_request_some eth _ _ Heth). simpl.
  rewrite Hchain. simpl.
  destruct (fetch_and_set first c
    (Build_Sys w' (wallet s)
       ((trace s ++ [Requested eth_requestAccounts]) ++ [Requested eth_chainId])))
    as (b & i & s' & -> & Hw & _).
  now exists b, i, s'.
Qed.

(** C2. [connectWallet] is atomic on failure: it never throws, and when
    the account request or the chain-id query rejects (with any error, a
    network error included) the wallet state afterwards is the wallet state
    before; in every run it writes either no field or all of them. *)
Theorem connectWallet_atomic_on_failure (sys : Sys World) :
  (exists sys', connectWallet formatEther ethereum sys = (Returned tt, sys')) /\
  (forall eth e w,
      ethereum = Some eth ->
      request eth eth_requestAccounts (world sys) = (Thrown e, w) ->
      walletAfter (connectWallet formatEther ethereum) sys = wallet sys) /\
  (forall eth accounts w e w',
      ethereum = Some eth ->
      request eth eth_requestAccounts (world sys) = (Returned accounts, w) ->
      request eth eth_chainId w = (Thrown e, w') ->
      walletAfter (connectWallet formatEther ethereum) sys = wallet sys) /\
  (walletAfter (connectWallet formatEther ethereum) sys = wallet sys \/
   exists a c b n v,
     walletAfter (connectWallet formatEther ethereum) sys =
     {| address := Some a; chainId := Some c; isConnected := true; balance := b;
        ensName := n; ensAvatar := v; userDisconnected := false |}).
Proof.
  destruct (connectWallet_run sys) as (s' & Hrun & Hw).
  split; [now exists s'|].
  split; [intros; eapply connectWallet_accounts_rejected; eauto|].
  split; [intros; eapply connectWallet_chainId_rejected; eauto|].
  unfold walletAfter. rewrite Hrun. simpl.
  destruct Hw as [Hw|(a & c & b & i & Hw)]; [now left|].
  right. exists a, c, b, (info_ensName i), (info_ensAvatar i). exact Hw.
Qed.

(** C3. After a successful [connectWallet] (the provider answers the
    account request with a non-empty list and then the chain-id query):
    isConnected = true, userDisconnected = false and address is the first
    returned account. *)
Theorem connectWallet_success eth (sys : Sys World) first rest w c w' :
  ethereum = Some eth ->
  request eth eth_requestAccounts (world sys) = (Returned (first :: rest), w) ->
  request eth eth_chainId w = (Returned c, w') ->
  fst (connectWallet formatEther ethereum sys) = Returned tt /\
  isConnected (walletAfter (connectWallet formatEther ethereum) sys) = true /\
  userDisconnected (walletAfter (connectWallet formatEther ethereum) sys) = false /\
  address (walletAfter (connectWallet formatEther ethereum) sys) = Some first /\
  chainId (walletAfter (connectWallet formatEther ethereum) sys) = Some c.
Proof.
  intros Heth Hreq Hchain.
  destruct (connectWallet_connects eth sys first rest w c w' Heth Hreq Hchain)
    as (b & i & s' & Hrun & Hw).
  unfold walletAfter. rewrite Hrun. simpl. rewrite Hw. simpl. auto.
Qed.

End StoreFacts.

(** ** Network switching and the controller *)

Section ControllerFacts.

Context {World Resolver : Type}.
Variable formatEther : N -> string.

Lemma refreshConnected_run (ethereum : option (Ethereum World Resolver)) c (s : Sys World) :
  exists s',
    refreshConnected formatEther ethereum c s = (Returned tt, s') /\
    (wallet s' = wallet s \/ exists a c' b i, wallet s' = connected a c' b i) /\
    unprompted s s'.
Proof.
  unfold refreshConnected. rewrite bind_unfold. unfold get.
  destruct (address (wallet s)) as [a|].
  - destruct (JS.truthy a).
    + destruct (updateWalletState_run formatEther ethereum a (Some c) s)
        as (s' & Hrun & Hw & Hu).
      exists s'. split; [exact Hrun|]. split; [|exact Hu].
      destruct Hw as [Hw|(c' & b & i & Hw)]; [now left | right; now exists a, c', b, i].
    + exists s. split; [reflexivity|]. split; [now left | apply unprompted_refl].
  - exists s. split; [reflexivity|]. split; [now left | apply unprompted_refl].
Qed.

Lemma switchNetwork_run (ethereum : option (Ethereum World Resolver)) key (s : Sys World) :
  exists s',
    switchNetwork formatEther ethereum key s = (Returned tt, s') /\
    (wallet s' = wallet s \/ exists a c b i, wallet s' = connected a c b i).
Proof.
  unfold switchNetwork. destruct ethereum as [eth|].
  2:{ exists s. split; [reflexivity | now left]. }
  cbv zeta. unfold tryCatch. rewrite bind_unfold.
  rewrite (ethereum_request_some (Some eth) eth _ _ eq_refl).
  destruct (request eth _ (world s)) as [[[]|e] w]; cbn [fst snd].
  - match goal with |- context [refreshConnected _ _ ?c ?s0] =>
      destruct (refreshConnected_run (Some eth) c s0) as (s' & -> & Hw & _) end.
    exists s'. split; [reflexivity | exact Hw].
  - destruct (codeIs e 4902).
    + rewrite bind_unfold, (ethereum_request_some (Some eth) eth _ _ eq_refl).
      cbn [fst snd world wallet trace].
      destruct (request eth _ w) as [[[]|e'] w']; cbn [fst snd].
      * match goal with |- context [refreshConnected _ _ ?c ?s0] =>
          destruct (refreshConnected_run (Some eth) c s0) as (s' & -> & Hw & _) end.
        exists s'. split; [reflexivity | exact Hw].
      * eexists. split; [reflexivity | now left].
    + eexists. split; [reflexivity | now left].
Qed.

Lemma connected_invariant a c b i : invariant (connected a c b i).
Proof. reflexivity. Qed.

Lemma setWallet_spread (p : PartialWalletState) (s : Sys World) :
  walletAfter (setWallet p) s = spread (wallet s) p.
Proof.
  unfold walletAfter, setWallet, setWith, set. simpl. apply spread_allFields.
Qed.

(** C1 (amended). Every store operation other than [setWallet] preserves
    isConnected == (address != null) for all inputs; [setWallet] preserves
    it when the partial record leaves both [address] and [isConnected] out,
    or supplies both in agreement. *)
Theorem store_operations_preserve_invariant (ethereum : option (Ethereum World Resolver)) (sys : Sys World) :
  invariant (wallet sys) ->
  (forall p, consistentPartial p -> invariant (walletAfter (setWallet p) sys)) /\
  invariant (walletAfter resetWallet sys) /\
  invariant (walletAfter (connectWallet formatEther ethereum) sys) /\
  (forall a c, invariant (walletAfter (updateWalletState formatEther ethereum a c) sys)) /\
  invariant (walletAfter disconnectWallet sys) /\
  (forall key, invariant (walletAfter (switchNetwork formatEther ethereum key) sys)).
Proof.
  intros Hinv. split; [|split; [|split; [|split; [|split]]]].
  - intros p Hp. rewrite setWallet_spread. unfold invariant, consistentPartial in *.
    destruct p as [pa pc pi pb pn pv pu]. simpl in *.
    destruct pa as [a|], pi as [c|]; simpl; try contradiction; [exact Hp | exact Hinv].
  - unfold walletAfter, resetWallet. rewrite set_allFields. reflexivity.
  - destruct (connectWallet_run formatEther ethereum sys) as (s' & Hrun & Hw).
    unfold walletAfter. rewrite Hrun. simpl.
    destruct Hw as [->|(a & c & b & i & ->)]; [exact Hinv | apply connected_invariant].
  - intros a c.
    destruct (updateWalletState_run formatEther ethereum a c sys) as (s' & Hrun & Hw & _).
    unfold walletAfter. rewrite Hrun. simpl.
    destruct Hw as [->|(c' & b & i & ->)]; [exact Hinv | apply connected_invariant].
  - unfold walletAfter, disconnectWallet. rewrite set_allFields. reflexivity.
  - intros key. destruct (switchNetwork_run ethereum key sys) as (s' & Hrun & Hw).
    unfold walletAfter. rewrite Hrun. simpl.
    destruct Hw as [->|(a & c & b & i & ->)]; [exact Hinv | apply connected_invariant].
Qed.

(** C4. [disconnectWallet] leaves exactly the cleared record with
    userDisconnected = true, whatever the state before; an accountsChanged
    event with an empty list makes the controller call [disconnectWallet],
    so the state becomes that record. *)
Theorem disconnectWallet_clears (ethereum : option (Ethereum World Resolver)) (snapshot : WalletState)
    (sys : Sys World) :
  walletAfter disconnectWallet sys =
    {| address := None; chainId := None; isConnected := false; balance := "0";
       ensName := None; ensAvatar := None; userDisconnected := true |} /\
  handleAccountsChanged formatEther ethereum snapshot [] sys =
    disconnectWallet
      (Build_Sys (world sys) (wallet sys) (trace sys ++ [ConsoleLog "handleAccountsChanged"])) /\
  walletAfter (handleAccountsChanged formatEther ethereum snapshot []) sys =
    {| address := None; chainId := None; isConnected := false; balance := "0";
       ensName := None; ensAvatar := None; userDisconnected := true |}.
Proof.
  split; [|split].
  - unfold walletAfter, disconnectWallet. rewrite set_allFields. reflexivity.
  - reflexivity.
  - unfold walletAfter, handleAccountsChanged. rewrite bind_unfold.
    unfold emit, disconnectWallet. rewrite set_allFields. reflexivity.
Qed.

(** C7. On mount with userDisconnected = true, or with the wallet already
    connected, the initial check returns at once: the wallet state and the
    world outside are unchanged and the provider is asked nothing; the only
    thing mounting does is register the two listeners. *)
Theorem mount_without_reconnect (ethereum : option (Ethereum World Resolver)) (sys : Sys World) :
  userDisconnected (wallet sys) = true \/ isConnected (wallet sys) = true ->
  checkInitialConnection formatEther ethereum (wallet sys) sys = (Returned tt, sys) /\
  exists sys',
    mount formatEther ethereum sys = (Returned tt, sys') /\
    wallet sys' = wallet sys /\
    world sys' = world sys /\
    trace sys' =
      (trace sys ++
       if isMetaMaskInstalled ethereum
       then [Listening "accountsChanged"; Listening "chainChanged"]
       else [])%list.
Proof.
  intros Hflag.
  assert (Hcheck : forall s : Sys World,
    checkInitialConnection formatEther ethereum (wallet sys) s = (Returned tt, s)).
  { intros s. unfold checkInitialConnection.
    destruct Hflag as [-> | ->]; [reflexivity|].
    now destruct (userDisconnected (wallet sys)). }
  split; [apply Hcheck|].
  unfold mount. rewrite bind_unfold. unfold get, mountEffect.
  destruct ethereum as [eth|]; cbn [isMetaMaskInstalled negb].
  - unfold bind, emit. rewrite Hcheck.
    eexists. split; [reflexivity|]. cbn [wallet world trace].
    rewrite <- app_assoc. auto.
  - exists sys. unfold ret. rewrite app_nil_r. auto.
Qed.

Lemma isMainnet_spec (c : option string) : isMainnet c = true <-> c = Some "0x1".
Proof.
  destruct c as [c|]; simpl; [|split; discriminate].
  rewrite String.eqb_eq. split; [now intros -> | now intros [= ->]].
Qed.

Lemma isMainnet_false (c : option string) : c <> Some "0x1" -> isMainnet c = false.
Proof.
  intros H. destruct (isMainnet c) eqn:E; [|reflexivity].
  apply isMainnet_spec in E. contradiction.
Qed.

Lemma truthy_mainnet_arg (cid : option string) :
  JS.truthy_opt cid = false -> isMainnet cid = false.
Proof.
  destruct cid as [[|a c]|]; simpl; intros H; try reflexivity; discriminate.
Qed.

(** Off mainnet [getENSInfo] answers with two nulls. *)
Lemma getENSInfo_off_mainnet (ethereum : option (Ethereum World Resolver)) addr cid (s : Sys World) info s' :
  getENSInfo ethereum addr cid s = (Returned info, s') ->
  fst (resolvedChainId ethereum cid (world s)) <> Some "0x1" ->
  info = noEnsInfo.
Proof.
  unfold getENSInfo, resolvedChainId. run.
  destruct ethereum as [eth|]; simpl.
  2:{ intros [= <- _]. reflexivity. }
  destruct (JS.truthy_opt cid) eqn:Ht; simpl.
  - intros Hrun Hne. simpl in Hne. rewrite (isMainnet_false _ Hne) in Hrun. simpl in Hrun.
    now injection Hrun as <- _.
  - destruct (request eth eth_chainId (world s)) as [[c|e] w0]; simpl.
    + intros Hrun Hne. simpl in Hne.
      destruct (String.eqb_spec c "0x1") as [->|_]; [now elim Hne|].
      simpl in Hrun. now injection Hrun as <- _.
    + rewrite (truthy_mainnet_arg _ Ht). simpl. now intros [= <- _].
Qed.

(** On mainnet a rejected reverse lookup is the outer failure: two nulls. *)
Lemma getENSInfo_lookup_rejected (eth : Ethereum World Resolver) addr cid
    (s : Sys World) w1 e w2 :
  resolvedChainId (Some eth) cid (world s) = (Some "0x1", w1) ->
  provider_lookupAddress eth addr w1 = (Thrown e, w2) ->
  fst (getENSInfo (Some eth) addr cid s) = Returned noEnsInfo.
Proof.
  unfold getENSInfo, resolvedChainId. run.
  destruct (JS.truthy_opt cid); simpl.
  - intros [= -> <-] Hl. simpl. rewrite Hl. reflexivity.
  - destruct (request eth eth_chainId (world s)) as [[c|e0] w0]; simpl.
    + intros [= -> <-] Hl. simpl. rewrite Hl. reflexivity.
    + intros [=].
Qed.

(** On mainnet, with a name found, a failure while resolving the avatar
    (no resolver call answered, or the avatar call rejected) keeps the name
    and gives a null avatar. *)
Lemma getENSInfo_avatar_rejected (eth : Ethereum World Resolver) addr cid
    (s : Sys World) w1 name w2 :
  resolvedChainId (Some eth) cid (world s) = (Some "0x1", w1) ->
  provider_lookupAddress eth addr w1 = (Returned (Some name), w2) ->
  JS.truthy name = true ->
  (forall e w3,
      provider_getResolver eth name w2 = (Thrown e, w3) ->
      fst (getENSInfo (Some eth) addr cid s) =
      Returned {| info_ensName := Some name; info_ensAvatar := None |}) /\
  (forall r w3 e w4,
      provider_getResolver eth name w2 = (Returned (Some r), w3) ->
      resolver_getAvatar eth r w3 = (Thrown e, w4) ->
      fst (getENSInfo (Some eth) addr cid s) =
      Returned {| info_ensName := Some name; info_ensAvatar := None |}).
Proof.
  unfold getENSInfo, resolvedChainId. run.
  destruct (JS.truthy_opt cid); simpl.
  - intros [= -> <-] Hl Ht. simpl. rewrite Hl. simpl. rewrite Ht. simpl. split.
    + intros e w3 Hr. rewrite Hr. reflexivity.
    + intros r w3 e w4 Hr Ha. rewrite Hr. simpl. rewrite Ha. reflexivity.
  - destruct (request eth eth_chainId (world s)) as [[c|e0] w0]; simpl.
    + intros [= -> <-] Hl Ht. simpl. rewrite Hl. simpl. rewrite Ht. simpl. split.
      * intros e w3 Hr. rewrite Hr. reflexivity.
      * intros r w3 e w4 Hr Ha. rewrite Hr. simpl. rewrite Ha. reflexivity.
    + intros [=].
Qed.

Lemma option_string_dec (a b : option string) : {a = b} + {a <> b}.
Proof. decide equality. apply string_dec. Qed.

(** C6. [getENSInfo] always returns; a non-null name or avatar comes back
    only when the resolved chain id (the argument when given, otherwise the
    provider's live answer) is "0x1"; off mainnet and on an outer failure
    (the reverse lookup rejects) both are null; when only the avatar
    resolution fails the name is kept and the avatar is null. *)
Theorem getENSInfo_mainnet_only (ethereum : option (Ethereum World Resolver)) addr cid (sys : Sys World) :
  exists info sys',
    getENSInfo ethereum addr cid sys = (Returned info, sys') /\
    wallet sys' = wallet sys /\
    ((info_ensName info <> None \/ info_ensAvatar info <> None) ->
     fst (resolvedChainId ethereum cid (world sys)) = Some "0x1") /\
    (fst (resolvedChainId ethereum cid (world sys)) <> Some "0x1" ->
     info = {| info_ensName := None; info_ensAvatar := None |}) /\
    (forall eth w1,
        ethereum = Some eth ->
        resolvedChainId ethereum cid (world sys) = (Some "0x1", w1) ->
        (forall e w2,
            provider_lookupAddress eth addr w1 = (Thrown e, w2) ->
            info = {| info_ensName := None; info_ensAvatar := None |}) /\
        (forall name w2,
            provider_lookupAddress eth addr w1 = (Returned (Some name), w2) ->
            JS.truthy name = true ->
            (forall e w3,
                provider_getResolver eth name w2 = (Thrown e, w3) ->
                info = {| info_ensName := Some name; info_ensAvatar := None |}) /\
            (forall r w3 e w4,
                provider_getResolver eth name w2 = (Returned (Some r), w3) ->
                resolver_getAvatar eth r w3 = (Thrown e, w4) ->
                info = {| info_ensName := Some name; info_ensAvatar := None |}))).
Proof.
  destruct (getENSInfo_returns ethereum addr cid sys) as (info & sys' & Hrun & Hw & _).
  exists info, sys'. split; [exact Hrun|]. split; [exact Hw|].
  assert (Hfst : forall i, fst (getENSInfo ethereum addr cid sys) = Returned i -> info = i).
  { intros i. rewrite Hrun. simpl. now intros [= ->]. }
  assert (Hoff : fst (resolvedChainId ethereum cid (world sys)) <> Some "0x1" ->
                 info = noEnsInfo)
    by (apply (getENSInfo_off_mainnet ethereum addr cid sys info sys' Hrun)).
  split; [|split; [exact Hoff|]].
  - intros Hsome.
    destruct (option_string_dec (fst (resolvedChainId ethereum cid (world sys))) (Some "0x1"))
      as [Heq|Hne]; [exact Heq|].
    rewrite (Hoff Hne) in Hsome. simpl in Hsome. now destruct Hsome as [H|H]; elim H.
  - intros eth w1 -> Hres. split.
    + intros e w2 Hl. apply Hfst.
      exact (getENSInfo_lookup_rejected eth addr cid sys w1 e w2 Hres Hl).
    + intros name w2 Hl Ht.
      destruct (getENSInfo_avatar_rejected eth addr cid sys w1 name w2 Hres Hl Ht)
        as [Hr Ha].
      split.
      * intros e w3 H3. apply Hfst. exact (Hr e w3 H3).
      * intros r w3 e w4 H3 H4. apply Hfst. exact (Ha r w3 e w4 H3 H4).
Qed.

End ControllerFacts.

(** ** Address formatting *)

Lemma formatAddress_slices (s : string) :
  formatAddress s =
  firstChars (Nat.min 6 (String.length s)) s ++ "..." ++
  lastChars (Nat.min 4 (String.length s)) s.
Proof.
  unfold formatAddress.
  change 6%Z with (Z.of_nat 6). change (-4)%Z with (- Z.of_nat 4)%Z.
  rewrite slice_prefix, slice_suffix by lia. reflexivity.
Qed.

Lemma firstChars_length (n : nat) (s : string) :
  n <= String.length s -> String.length (firstChars n s) = n.
Proof. intros H. apply substring_length. lia. Qed.

Lemma lastChars_length (n : nat) (s : string) :
  n <= String.length s -> String.length (lastChars n s) = n.
Proof. intros H. apply substring_length. lia. Qed.

(** C8. For an input of at least 10 characters [formatAddress] returns
    13 characters: the first 6 of the input, then "...", then the last 4. *)
Theorem formatAddress_long (address : string) :
  10 <= String.length address ->
  formatAddress address = firstChars 6 address ++ "..." ++ lastChars 4 address /\
  String.length (firstChars 6 address) = 6 /\
  String.length (lastChars 4 address) = 4 /\
  String.length (formatAddress address) = 13.
Proof.
  intros Hlen.
  assert (Heq : formatAddress address =
                firstChars 6 address ++ "..." ++ lastChars 4 address).
  { rewrite formatAddress_slices.
    now rewrite (Nat.min_l 6) by lia; rewrite (Nat.min_l 4) by lia. }
  assert (H6 := firstChars_length 6 address ltac:(lia)).
  assert (H4 := lastChars_length 4 address ltac:(lia)).
  repeat split; auto.
  rewrite Heq, !append_length, H6, H4. reflexivity.
Qed.

(** C10. [formatAddress] is total: for every string it returns the first
    min(6, |s|) characters, "...", and the last min(4, |s|) characters.
    A non-empty input shorter than 10 characters has a position that both
    slices cover, so more characters come out than went in; the empty
    string gives "...". *)
Theorem formatAddress_total (s : string) :
  let n := String.length s in
  formatAddress s =
    firstChars (Nat.min 6 n) s ++ "..." ++ lastChars (Nat.min 4 n) s /\
  String.length (formatAddress s) = Nat.min 6 n + 3 + Nat.min 4 n /\
  (0 < n < 10 ->
     (exists i, n - Nat.min 4 n <= i /\ i < Nat.min 6 n /\ i < n) /\
     n + 3 < String.length (formatAddress s)) /\
  formatAddress "" = "...".
Proof.
  intros n.
  assert (Heq := formatAddress_slices s). fold n in Heq.
  assert (Hlen : String.length (formatAddress s) = Nat.min 6 n + 3 + Nat.min 4 n).
  { rewrite Heq, !append_length, firstChars_length, lastChars_length by (unfold n; lia).
    simpl. lia. }
  split; [exact Heq|]. split; [exact Hlen|]. split; [|reflexivity].
  intros Hn. split; [|lia].
  exists (n - Nat.min 4 n). lia.
Qed.

(** ** Balance formatting *)

Local Open Scope Z_scope.

Lemma digitOf_digitChar (d : Z) :
  0 <= d < 10 -> Num.digitOf (Num.digitChar d) = Some d.
Proof.
  intros H.
  assert (d = 0 \/ d = 1 \/ d = 2 \/ d = 3 \/ d = 4 \/ d = 5 \/ d = 6 \/ d = 7 \/
          d = 8 \/ d = 9) as Hd by lia.
  repeat (destruct Hd as [-> | Hd]; [reflexivity|]). subst d. reflexivity.
Qed.

Lemma decimalValue_digitsFrom (fuel : nat) :
  forall n acc,
    0 <= n < 10 ^ Z.of_nat fuel ->
    decimalValue (Num.digitsFrom fuel n acc) =
    n * 10 ^ Z.of_nat (String.length acc) + decimalValue acc.
Proof.
  induction fuel as [|fuel IH]; intros n acc Hn.
  - simpl in *. assert (n = 0) as -> by lia. reflexivity.
  - cbn [Num.digitsFrom].
    assert (Hmod : 0 <= n mod 10 < 10) by (apply Z.mod_pos_bound; lia).
    destruct (Z.ltb_spec n 10) as [Hsmall|Hbig].
    + cbn [decimalValue]. rewrite digitOf_digitChar by exact Hmod.
      rewrite Z.mod_small by lia. reflexivity.
    + rewrite IH.
      * cbn [decimalValue String.length]. rewrite digitOf_digitChar by exact Hmod.
        rewrite Nat2Z.inj_succ, Z.pow_succ_r by lia.
        rewrite (Z.div_mod n 10) at 3 by lia. ring.
      * rewrite Nat2Z.inj_succ, Z.pow_succ_r in Hn by lia.
        split; [apply Z.div_pos; lia|].
        apply Z.div_lt_upper_bound; lia.
Qed.

Lemma digits_fuel (n : Z) : 0 <= n -> n < 10 ^ Z.of_nat (S (Z.to_nat (Z.log2 n))).
Proof.
  intros Hn. rewrite Nat2Z.inj_succ, Z2Nat.id by apply Z.log2_nonneg.
  destruct (Z.eq_dec n 0) as [->|Hpos]; [reflexivity|].
  destruct (Z.log2_spec n ltac:(lia)) as [_ Hlt].
  eapply Z.lt_le_trans; [exact Hlt|].
  apply Z.pow_le_mono_l. pose proof (Z.log2_nonneg n). lia.
Qed.

Lemma decimalValue_digits (n : Z) : 0 <= n -> decimalValue (Num.digits n) = n.
Proof.
  intros Hn. unfold Num.digits.
  rewrite decimalValue_digitsFrom by (split; [exact Hn | now apply digits_fuel]).
  simpl. ring.
Qed.

Lemma isDigit_digitChar (d : Z) : 0 <= d < 10 -> isDigit (Num.digitChar d) = true.
Proof. intros H. unfold isDigit. now rewrite digitOf_digitChar. Qed.

Lemma allDigits_digitsFrom (fuel : nat) :
  forall n acc, 0 <= n -> allDigits acc = true ->
                allDigits (Num.digitsFrom fuel n acc) = true.
Proof.
  induction fuel as [|fuel IH]; intros n acc Hn Hacc; [exact Hacc|].
  cbn [Num.digitsFrom].
  assert (Hd : allDigits (String (Num.digitChar (n mod 10)) acc) = true).
  { cbn [allDigits]. rewrite isDigit_digitChar, Hacc; [reflexivity|].
    apply Z.mod_pos_bound; lia. }
  destruct (n <? 10); [exact Hd|].
  apply IH; [apply Z.div_pos; lia | exact Hd].
Qed.

Lemma allDigits_digits (n : Z) : 0 <= n -> allDigits (Num.digits n) = true.
Proof. intros Hn. now apply allDigits_digitsFrom. Qed.

Lemma allDigits_app (a b : string) :
  allDigits (a ++ b) = allDigits a && allDigits b.
Proof.
  induction a as [|c a IH]; simpl; [reflexivity|]. now rewrite IH, andb_assoc.
Qed.

Lemma allDigits_zeros (n : nat) : allDigits (Num.zeros n) = true.
Proof. induction n as [|n IH]; simpl; [reflexivity | exact IH]. Qed.

Lemma length_zeros (n : nat) : String.length (Num.zeros n) = n.
Proof. induction n as [|n IH]; simpl; [reflexivity | now rewrite IH]. Qed.

Lemma decimalValue_zeros (n : nat) (s : string) :
  decimalValue (Num.zeros n ++ s) = decimalValue s.
Proof. induction n as [|n IH]; simpl; [reflexivity | exact IH]. Qed.

Lemma substring_split (s : string) (a b : nat) :
  (a + b)%nat = String.length s -> substring 0 a s ++ substring a b s = s.
Proof.
  revert a b; induction s as [|c s IH]; intros a b H; simpl in H.
  - assert (a = 0 /\ b = 0)%nat as [-> ->] by lia. reflexivity.
  - destruct a as [|a].
    + simpl. destruct b as [|b]; [discriminate|]. f_equal.
      specialize (IH 0%nat b ltac:(lia)). rewrite substring_zero_r in IH. exact IH.
    + simpl. f_equal. apply IH. lia.
Qed.

Lemma digitsFrom_length (fuel : nat) (n : Z) (acc : string) :
  (String.length acc < String.length (Num.digitsFrom (S fuel) n acc))%nat.
Proof.
  revert n acc; induction fuel as [|fuel IH]; intros n acc.
  - cbn [Num.digitsFrom]. destruct (n <? 10); simpl; lia.
  - cbn [Num.digitsFrom] in *. destruct (n <? 10); [simpl; lia|].
    specialize (IH (n / 10) (String (Num.digitChar (n mod 10)) acc)).
    simpl in IH. lia.
Qed.

Lemma digits_nonempty (n : Z) : (1 <= String.length (Num.digits n))%nat.
Proof. unfold Num.digits. pose proof (digitsFrom_length (Z.to_nat (Z.log2 n)) n ""). simpl in *. lia. Qed.

Lemma fixedDigits_cut (n : Z) :
  exists m',
    Num.fixedDigits n 4 =
      substring 0 (String.length m' - 4) m' ++ "." ++ substring (String.length m' - 4) 4 m' /\
    (5 <= String.length m')%nat /\
    (0 <= n -> allDigits m' = true /\ decimalValue m' = n).
Proof.
  unfold Num.fixedDigits.
  pose proof (digits_nonempty n) as Hk.
  destruct (Nat.leb_spec (String.length (Num.digits n)) 4) as [Hshort|Hlong].
  - eexists. split; [reflexivity|]. split.
    + rewrite append_length, length_zeros. lia.
    + intros Hn. rewrite allDigits_app, allDigits_zeros, decimalValue_zeros.
      split; [now apply allDigits_digits | now apply decimalValue_digits].
  - eexists. split; [reflexivity|]. split; [lia|].
    intros Hn. split; [now apply allDigits_digits | now apply decimalValue_digits].
Qed.

Lemma fixedDigits_4_length (n : Z) : (5 <= String.length (Num.fixedDigits n 4))%nat.
Proof.
  destruct (fixedDigits_cut n) as (m' & -> & Hlen & _).
  rewrite !append_length, !substring_length by lia. simpl. lia.
Qed.

Lemma fixedDigits_4_shape (n : Z) :
  0 <= n ->
  exists whole frac,
    Num.fixedDigits n 4 = whole ++ "." ++ frac /\
    whole <> "" /\ allDigits whole = true /\
    String.length frac = 4%nat /\ allDigits frac = true /\
    decimalValue (whole ++ frac) = n.
Proof.
  intros Hn. destruct (fixedDigits_cut n) as (m' & Heq & Hlen & Hm).
  destruct (Hm Hn) as [Hall Hval].
  exists (substring 0 (String.length m' - 4) m'), (substring (String.length m' - 4) 4 m').
  assert (Hsplit := substring_split m' (String.length m' - 4) 4 ltac:(lia)).
  rewrite Hsplit. rewrite <- Hsplit, allDigits_app in Hall.
  apply andb_true_iff in Hall as [Hw Hf].
  repeat split; auto.
  - intros Hempty.
    assert (Hl := substring_length m' 0 (String.length m' - 4) ltac:(lia)).
    rewrite Hempty in Hl. simpl in Hl. lia.
  - apply substring_length. lia.
Qed.

Lemma toStringLarge_not_zero (v : Z) (x : Num.Number) : Num.toStringLarge v x <> "0".
Proof.
  unfold Num.toStringLarge.
  destruct (Num.shortest 17 1 _ v x) as [s n'].
  destruct (Num.digits s) as [|d [|d' more]]; simpl; discriminate.
Qed.

Lemma toFixed_4_not_zero (x : Num.Number) : Num.toFixed x 4 <> "0".
Proof.
  assert (Hfixed : forall n, Num.fixedDigits n 4 <> "0").
  { intros n H. pose proof (fixedDigits_4_length n) as Hl. rewrite H in Hl. simpl in Hl. lia. }
  destruct x as [s|[|]| |[|] m e]; cbn [Num.toFixed]; try discriminate; try apply Hfixed.
  - destruct (Num.exact m e) as [num den].
    destruct (10 ^ 21 * den <=? num); simpl; discriminate.
  - destruct (Num.exact m e) as [num den].
    destruct (10 ^ 21 * den <=? num); simpl; [apply toStringLarge_not_zero | apply Hfixed].
Qed.

Lemma exact_positive (m : positive) (e : Z) :
  0 <= fst (Num.exact m e) /\ 0 < snd (Num.exact m e).
Proof.
  unfold Num.exact. destruct (Z.leb_spec 0 e); cbn [fst snd].
  - split; [|lia]. apply Z.mul_nonneg_nonneg; [lia|]. apply Z.pow_nonneg. lia.
  - split; [lia|]. apply Z.pow_pos_nonneg; lia.
Qed.

(** The integer [toFixed] picks is nearest to [num / den * 10^4]. *)
Lemma nearest_multiple (num den : Z) :
  0 <= num -> 0 < den ->
  let n := (2 * num * 10 ^ 4 + den) / (2 * den) in
  0 <= n /\ 2 * Z.abs (n * den - num * 10 ^ 4) <= den.
Proof.
  intros Hnum Hden n.
  assert (Hdiv := Z.div_mod (2 * num * 10 ^ 4 + den) (2 * den) ltac:(lia)).
  assert (Hmod := Z.mod_pos_bound (2 * num * 10 ^ 4 + den) (2 * den) ltac:(lia)).
  fold n in Hdiv.
  assert (H4 : 10 ^ 4 = 10000) by reflexivity. rewrite H4 in *.
  split.
  - apply Z.div_pos; lia.
  - apply Z.abs_le. nia.
Qed.

Lemma allDigits_digitsFrom_any (fuel : nat) :
  forall n acc, allDigits acc = true -> allDigits (Num.digitsFrom fuel n acc) = true.
Proof.
  induction fuel as [|fuel IH]; intros n acc Hacc; [exact Hacc|].
  cbn [Num.digitsFrom].
  assert (Hd : allDigits (String (Num.digitChar (n mod 10)) acc) = true).
  { cbn [allDigits]. rewrite isDigit_digitChar, Hacc; [reflexivity|].
    apply Z.mod_pos_bound. lia. }
  destruct (n <? 10)%Z; [exact Hd|]. apply IH. exact Hd.
Qed.

Lemma digits_head_is_digit (n : Z) (d : ascii) (more : string) :
  Num.digits n = String d more -> isDigit d = true.
Proof.
  intros H. pose proof (allDigits_digitsFrom_any (S (Z.to_nat (Z.log2 n))) n "" eq_refl) as Ha.
  unfold Num.digits in H. rewrite H in Ha. cbn [allDigits] in Ha.
  now apply andb_true_iff in Ha as [Hd _].
Qed.

Lemma digitOf_bound (c : ascii) (d : Z) : Num.digitOf c = Some d -> 0 <= d < 10.
Proof.
  unfold Num.digitOf.
  destruct (Nat.leb_spec 48 (nat_of_ascii c)); [|discriminate].
  destruct (Nat.leb_spec (nat_of_ascii c) 57); [|discriminate].
  cbn [andb]. intros [= <-]. lia.
Qed.

Lemma decimalValue_bound (s : string) :
  allDigits s = true -> 0 <= decimalValue s < 10 ^ Z.of_nat (String.length s).
Proof.
  induction s as [|c s IH]; intros Hall.
  - cbn. lia.
  - cbn [allDigits] in Hall. apply andb_true_iff in Hall as [Hc Hs].
    specialize (IH Hs). cbn [decimalValue String.length].
    rewrite Nat2Z.inj_succ, Z.pow_succ_r by lia.
    unfold isDigit in Hc. destruct (Num.digitOf c) as [d|] eqn:Hd; [|discriminate].
    apply digitOf_bound in Hd.
    assert (0 < 10 ^ Z.of_nat (String.length s)) by (apply Z.pow_pos_nonneg; lia).
    nia.
Qed.

(** A number of 10^21 or more has at least 22 digits. *)
Lemma digits_of_large (v : Z) :
  10 ^ 21 <= v -> 22 <= Z.of_nat (String.length (Num.digits v)).
Proof.
  intros Hv.
  assert (Hpos : 0 <= v) by (assert (0 < 10 ^ 21) by reflexivity; lia).
  pose proof (decimalValue_bound (Num.digits v) (allDigits_digits v Hpos)) as [_ Hlt].
  rewrite (decimalValue_digits v Hpos) in Hlt.
  destruct (Z_lt_le_dec (Z.of_nat (String.length (Num.digits v))) 22) as [Hshort|]; [|lia].
  assert (10 ^ Z.of_nat (String.length (Num.digits v)) <= 10 ^ 21)
    by (apply Z.pow_le_mono_r; lia).
  lia.
Qed.

Lemma shortest_exponent (fuel : nat) :
  forall k n v x,
    snd (Num.shortest fuel k n v x) = n \/ snd (Num.shortest fuel k n v x) = n + 1.
Proof.
  induction fuel as [|fuel IH]; intros k n v x.
  - left. reflexivity.
  - cbn [Num.shortest].
    repeat match goal with
           | |- context [if ?c then _ else _] => destruct c
           end; cbn [snd]; auto.
Qed.

Lemma toStringLarge_exponent (v : Z) (x : Num.Number) :
  10 ^ 21 <= v -> exponentNotation (Num.toStringLarge v x).
Proof.
  intros Hv. unfold Num.toStringLarge.
  pose proof (digits_of_large v Hv) as Hn.
  pose proof (shortest_exponent 17 1 (Z.of_nat (String.length (Num.digits v))) v x) as Hexp.
  destruct (Num.shortest 17 1 _ v x) as [s n']. cbn [snd] in Hexp.
  assert (Hex : allDigits (Num.digits (n' - 1)) = true /\
                21 <= decimalValue (Num.digits (n' - 1))).
  { split; [apply allDigits_digits; lia|]. rewrite decimalValue_digits; lia. }
  destruct Hex as [Hexd Hexv].
  pose proof (allDigits_digitsFrom_any (S (Z.to_nat (Z.log2 s))) s "" eq_refl) as Hall.
  fold (Num.digits s) in Hall.
  pose proof (digits_nonempty s) as Hne.
  destruct (Num.digits s) as [|d more]; [cbn in Hne; lia|].
  cbn [allDigits] in Hall. apply andb_true_iff in Hall as [Hd Hmore].
  destruct more as [|d' more].
  - exists d, "", (Num.digits (n' - 1)). repeat split; auto.
  - exists d, ("." ++ String d' more), (Num.digits (n' - 1)).
    split; [reflexivity|].
    split; [exact Hd|]. split; [|now split].
    right. exists (String d' more). repeat split; [discriminate | exact Hmore].
Qed.

Example lit_0_0001_parsed : Num.parseFloat "0.0001" = Num.lit_0_0001.
Proof. reflexivity. Qed.

(** C9 (amended). For every string b, formatBalance(b) is "0" exactly
    when the parsed value is below 0.0001.  Otherwise: a finite value below
    10^21 is written in fixed notation with exactly four decimal places,
    rounded to the nearest multiple of 0.0001; a finite value of 10^21 or
    more is written in exponent notation; plus infinity gives
    "Infinity". *)
Theorem formatBalance_fixed (b : string) :
  (formatBalance b = "0" <-> Num.lt (Num.parseFloat b) Num.lit_0_0001 = true) /\
  (forall m e,
      Num.parseFloat b = S754_finite false m e ->
      Num.lt (Num.parseFloat b) Num.lit_0_0001 = false ->
      fst (Num.exact m e) < 10 ^ 21 * snd (Num.exact m e) ->
      fixedTo4 (formatBalance b) (fst (Num.exact m e)) (snd (Num.exact m e))) /\
  (forall m e,
      Num.parseFloat b = S754_finite false m e ->
      Num.lt (Num.parseFloat b) Num.lit_0_0001 = false ->
      10 ^ 21 * snd (Num.exact m e) <= fst (Num.exact m e) ->
      exponentNotation (formatBalance b)) /\
  (Num.parseFloat b = S754_infinity false -> formatBalance b = "Infinity").
Proof.
  unfold formatBalance. split; [|split; [|split]].
  - destruct (Num.lt (Num.parseFloat b) Num.lit_0_0001).
    + split; reflexivity.
    + split; [|discriminate]. intros H. now apply toFixed_4_not_zero in H.
  - intros m e Hparse Hlt Hbelow. rewrite Hlt, Hparse. cbn [Num.toFixed].
    destruct (exact_positive m e) as [Hnum Hden].
    destruct (Num.exact m e) as [num den]. cbn [fst snd] in *.
    destruct (Z.leb_spec (10 ^ 21 * den) num) as [Hbig|_]; [lia|].
    change ("" ++ Num.fixedDigits ((2 * num * 10 ^ Z.of_nat 4 + den) / (2 * den)) 4)%string
      with (Num.fixedDigits ((2 * num * 10 ^ 4 + den) / (2 * den)) 4).
    destruct (nearest_multiple num den Hnum Hden) as [Hn Hnear].
    destruct (fixedDigits_4_shape _ Hn) as (whole & frac & Heq & Hne & Hw & Hl & Hf & Hval).
    exists whole, frac. rewrite Hval. repeat split; assumption.
  - intros m e Hparse Hlt Hlarge. rewrite Hlt, Hparse. cbn [Num.toFixed].
    destruct (exact_positive m e) as [Hnum Hden].
    destruct (Num.exact m e) as [num den]. cbn [fst snd] in *.
    destruct (Z.leb_spec (10 ^ 21 * den) num) as [_|Hsmall]; [|lia].
    change ("" ++ Num.toStringLarge num (S754_finite false m e))%string
      with (Num.toStringLarge num (S754_finite false m e)).
    apply toStringLarge_exponent.
    assert (0 < 10 ^ 21) by reflexivity. nia.
  - intros Hparse. rewrite Hparse. reflexivity.
Qed.

Lemma formatBalance_fixed_witness :
  fixedTo4 (formatBalance "1.23456") 5559963955966520 4503599627370496 /\
  exponentNotation (formatBalance "1000000000000000000000").
Proof.
  split.
  - exact (proj1 (proj2 (formatBalance_fixed "1.23456")) 5559963955966520%positive (-52)
             eq_refl eq_refl eq_refl).
  - refine (proj1 (proj2 (proj2 (formatBalance_fixed "1000000000000000000000")))
              7629394531250000%positive 17 eq_refl eq_refl _).
    intros H. discriminate H.
Defined.

(** C9 as stated fails at 10^21: the parsed value is not below 0.0001,
    yet the result is in exponent notation, with no decimal places. *)
Lemma formatBalance_exponent_counterexample :
  Num.lt (Num.parseFloat "1000000000000000000000") Num.lit_0_0001 = false /\
  formatBalance "1000000000000000000000" = "1e+21" /\
  ~ (exists whole frac,
        formatBalance "1000000000000000000000" = (whole ++ "." ++ frac)%string /\
        String.length frac = 4%nat).
Proof.
  split; [reflexivity|]. split; [reflexivity|].
  intros (whole & frac & Heq & _).
  change (formatBalance "1000000000000000000000") with "1e+21"%string in Heq.
  repeat (destruct whole as [|? whole]; simpl in Heq; [discriminate|];
          injection Heq as _ Heq).
  destruct whole; discriminate.
Qed.

(** ** The statements at sample inputs *)

Local Close Scope Z_scope.

(** C1 as stated fails for [setWallet]: merging a partial record that sets
    isConnected alone into the initial state leaves isConnected = true with
    a null address. *)
Lemma setWallet_breaks_invariant_counterexample :
  invariant (wallet Sample.fresh) /\
  walletAfter (setWallet Sample.onlyConnected) Sample.fresh =
    {| address := None; chainId := None; isConnected := true; balance := "0";
       ensName := None; ensAvatar := None; userDisconnected := false |} /\
  ~ invariant (walletAfter (setWallet Sample.onlyConnected) Sample.fresh).
Proof.
  split; [reflexivity|]. split; [reflexivity|]. intros H. discriminate H.
Qed.

Lemma store_operations_preserve_invariant_witness :
  invariant (wallet Sample.fresh) /\
  consistentPartial Sample.bothFields /\
  invariant (walletAfter (setWallet Sample.bothFields) Sample.fresh) /\
  invariant (walletAfter
               (connectWallet Sample.weiText (Some (Sample.scripted Sample.granting)))
               Sample.fresh).
Proof.
  assert (Hinv : invariant (wallet Sample.fresh)) by reflexivity.
  assert (Hp : consistentPartial Sample.bothFields) by reflexivity.
  pose proof (store_operations_preserve_invariant Sample.weiText
                (Some (Sample.scripted Sample.granting)) Sample.fresh Hinv)
    as (Hset & _ & Hconnect & _).
  exact (conj Hinv (conj Hp (conj (Hset _ Hp) Hconnect))).
Defined.

Lemma connectWallet_atomic_on_failure_witness :
  request (Sample.scripted Sample.declining) eth_requestAccounts (world Sample.fresh) =
    (Thrown (Sample.rejected 4001), 1) /\
  walletAfter (connectWallet Sample.weiText (Some (Sample.scripted Sample.declining)))
    Sample.fresh = wallet Sample.fresh.
Proof.
  split; [reflexivity|].
  exact (proj1 (proj2 (connectWallet_atomic_on_failure Sample.weiText
                         (Some (Sample.scripted Sample.declining)) Sample.fresh))
           (Sample.scripted Sample.declining) (Sample.rejected 4001) 1 eq_refl eq_refl).
Defined.

Lemma connectWallet_success_witness :
  address (walletAfter
             (connectWallet Sample.weiText (Some (Sample.scripted Sample.granting)))
             Sample.optedOut) = Some "0xabc" /\
  userDisconnected (walletAfter
             (connectWallet Sample.weiText (Some (Sample.scripted Sample.granting)))
             Sample.optedOut) = false.
Proof.
  pose proof (connectWallet_success Sample.weiText
                (Some (Sample.scripted Sample.granting)) (Sample.scripted Sample.granting)
                Sample.optedOut "0xabc" ["0xdef"] 1 "0x1" 2 eq_refl eq_refl eq_refl)
    as (_ & _ & Hflag & Haddr & _).
  exact (conj Haddr Hflag).
Defined.

Lemma getENSInfo_mainnet_only_witness :
  exists info sys',
    getENSInfo (Some (Sample.scripted Sample.granting)) "0xabc" (Some "0x38") Sample.fresh =
      (Returned info, sys') /\
    info = {| info_ensName := None; info_ensAvatar := None |}.
Proof.
  destruct (getENSInfo_mainnet_only (Some (Sample.scripted Sample.granting))
              "0xabc" (Some "0x38") Sample.fresh)
    as (info & sys' & Hrun & _ & _ & Hoff & _).
  exists info, sys'. split; [exact Hrun|].
  apply Hoff. simpl. discriminate.
Defined.

Lemma mount_without_reconnect_witness :
  userDisconnected (wallet Sample.optedOut) = true /\
  request (Sample.scripted Sample.granting) eth_accounts (world Sample.optedOut) =
    (Returned ["0xabc"], 1) /\
  exists sys',
    mount Sample.weiText (Some (Sample.scripted Sample.granting)) Sample.optedOut =
      (Returned tt, sys') /\
    wallet sys' = wallet Sample.optedOut /\ world sys' = world Sample.optedOut.
Proof.
  split; [reflexivity|]. split; [reflexivity|].
  destruct (proj2 (mount_without_reconnect Sample.weiText
                     (Some (Sample.scripted Sample.granting)) Sample.optedOut
                     (or_introl eq_refl)))
    as (sys' & Hrun & Hw & Hworld & _).
  exists sys'. auto.
Defined.

Lemma formatAddress_long_witness :
  10 <= String.length "0x1234567890abcdef1234567890abcdef12345678" /\
  String.length (formatAddress "0x1234567890abcdef1234567890abcdef12345678") = 13.
Proof.
  assert (H : 10 <= String.length "0x1234567890abcdef1234567890abcdef12345678")
    by (simpl; lia).
  split; [exact H|].
  exact (proj2 (proj2 (proj2 (formatAddress_long _ H)))).
Defined.

Lemma formatAddress_total_witness :
  0 < String.length "0xabc" < 10 /\
  String.length "0xabc" + 3 < String.length (formatAddress "0xabc").
Proof.
  assert (H : 0 < String.length "0xabc" < 10) by (simpl; lia).
  split; [exact H|].
  exact (proj2 (proj1 (proj2 (proj2 (formatAddress_total "0xabc"))) H)).
Defined.

(** * Further properties of the store and the controller *)

Section MoreStoreFacts.

Context {World Resolver : Type}.
Variable formatEther : N -> string.

Lemma traceAdds_refl (allowed : Event -> bool) (s : Sys World) : traceAdds allowed s s.
Proof. exists []. now rewrite app_nil_r. Qed.

Lemma traceAdds_trans (allowed : Event -> bool) (s1 s2 s3 : Sys World) :
  traceAdds allowed s1 s2 -> traceAdds allowed s2 s3 -> traceAdds allowed s1 s3.
Proof.
  intros (e1 & Ht1 & Hq1) (e2 & Ht2 & Hq2).
  exists (e1 ++ e2)%list. rewrite Ht2, Ht1, app_assoc. split; [reflexivity|].
  rewrite forallb_app, Hq1, Hq2. reflexivity.
Qed.

Lemma traceAdds_weaken (p q : Event -> bool) (s s' : Sys World) :
  (forall ev, p ev = true -> q ev = true) -> traceAdds p s s' -> traceAdds q s s'.
Proof.
  intros Hpq (evs & Ht & Hp). exists evs. split; [exact Ht|].
  rewrite forallb_forall in *. auto.
Qed.

Lemma console_unprompted (s s' : Sys World) : traceAdds isConsole s s' -> unprompted s s'.
Proof. apply traceAdds_weaken. now intros []. Qed.

Lemma getBalance_cases (ethereum : option (Ethereum World Resolver)) addr (s : Sys World) :
  match ethereum with
  | None => getBalance formatEther ethereum addr s = (Returned "0", s)
  | Some eth =>
      match provider_getBalance eth addr (world s) with
      | (Returned b, w) =>
          getBalance formatEther ethereum addr s =
          (Returned (formatEther b), Build_Sys w (wallet s) (trace s))
      | (Thrown err, w) =>
          getBalance formatEther ethereum addr s =
          (Returned "0",
           Build_Sys w (wallet s) (trace s ++ [ConsoleError "获取余额失败:" err]))
      end
  end.
Proof.
  unfold getBalance. run. destruct ethereum as [eth|]; simpl; [|reflexivity].
  destruct (provider_getBalance eth addr (world s)) as [[b|err] w]; reflexivity.
Qed.

Lemma getBalance_console (ethereum : option (Ethereum World Resolver)) addr (s : Sys World) :
  exists v s',
    getBalance formatEther ethereum addr s = (Returned v, s') /\
    wallet s' = wallet s /\ traceAdds isConsole s s'.
Proof.
  pose proof (getBalance_cases ethereum addr s) as H.
  destruct ethereum as [eth|].
  - destruct (provider_getBalance eth addr (world s)) as [[b|err] w]; rewrite H.
    + eexists _, _. split; [reflexivity|]. split; [reflexivity|].
      exists []. simpl. now rewrite app_nil_r.
    + eexists _, _. split; [reflexivity|]. split; [reflexivity|].
      eexists. split; reflexivity.
  - rewrite H. eexists _, _. split; [reflexivity|]. split; [reflexivity|].
    apply traceAdds_refl.
Qed.

(** With a chain id given, [getENSInfo] makes no [request] call of its
    own; off mainnet, or without a provider, it touches nothing at all. *)
Lemma getENSInfo_given (ethereum : option (Ethereum World Resolver)) addr c (s : Sys World) :
  JS.truthy c = true ->
  exists i s',
    getENSInfo ethereum addr (Some c) s = (Returned i, s') /\
    wallet s' = wallet s /\ traceAdds isConsole s s' /\
    (c <> "0x1" \/ ethereum = None -> i = noEnsInfo /\ s' = s).
Proof.
  intros Ht. unfold getENSInfo. run. rewrite Ht.
  destruct ethereum as [eth|]; simpl.
  2:{ exists noEnsInfo, s. repeat split; auto. apply traceAdds_refl. }
  destruct (String.eqb_spec c "0x1") as [->|Hne]; simpl.
  2:{ exists noEnsInfo, s. repeat split; auto. apply traceAdds_refl. }
  assert (Hno : forall (i : EnsInfo) (s' : Sys World),
             "0x1" <> "0x1" \/ Some eth = None -> i = noEnsInfo /\ s' = s).
  { intros i s' [H|H]; [now elim H | discriminate]. }
  destruct (provider_lookupAddress eth addr (world s)) as [[[name|]|e] w]; simpl.
  - destruct (JS.truthy name); simpl.
    + destruct (provider_getResolver eth name w) as [[[r|]|e] w']; simpl.
      * destruct (resolver_getAvatar eth r w') as [[av|e] w'']; simpl;
          (eexists _, _; split; [reflexivity|]; split; [reflexivity|]; split; [|apply Hno]).
        -- exists []. simpl. now rewrite app_nil_r.
        -- eexists. split; reflexivity.
      * eexists _, _. split; [reflexivity|]. split; [reflexivity|]. split; [|apply Hno].
        exists []. simpl. now rewrite app_nil_r.
      * eexists _, _. split; [reflexivity|]. split; [reflexivity|]. split; [|apply Hno].
        eexists. split; reflexivity.
    + eexists _, _. split; [reflexivity|]. split; [reflexivity|]. split; [|apply Hno].
      exists []. simpl. now rewrite app_nil_r.
  - eexists _, _. split; [reflexivity|]. split; [reflexivity|]. split; [|apply Hno].
    exists []. simpl. now rewrite app_nil_r.
  - eexists _, _. split; [reflexivity|]. split; [reflexivity|]. split; [|apply Hno].
    eexists. split; reflexivity.
Qed.

(** With a chain id given, [updateWalletState] cannot fail: it writes the
    connected record for that address and chain, and makes no [request]
    call of its own. *)
Lemma updateWalletState_given (ethereum : option (Ethereum World Resolver))
    a c (s : Sys World) :
  JS.truthy c = true ->
  exists b i s',
    updateWalletState formatEther ethereum a (Some c) s = (Returned tt, s') /\
    wallet s' = connected a c b i /\ traceAdds isConsole s s' /\
    (c <> "0x1" \/ ethereum = None -> i = noEnsInfo).
Proof.
  intros Ht. unfold updateWalletState, tryCatch. rewrite Ht.
  rewrite bind_unfold. unfold ret at 1. rewrite bind_unfold.
  destruct (getBalance_console ethereum a s) as (b & s1 & -> & Hw1 & Ht1).
  rewrite bind_unfold.
  destruct (getENSInfo_given ethereum a c s1 Ht) as (i & s2 & -> & Hw2 & Ht2 & Hoff).
  rewrite set_allFields. exists b, i. eexists. split; [reflexivity|].
  split; [reflexivity|]. split.
  - destruct (traceAdds_trans _ _ _ _ Ht1 Ht2) as (evs & Hev & Hall).
    exists evs. split; [exact Hev | exact Hall].
  - intros H. now destruct (Hoff H).
Qed.

(** X2. [getBalance] never throws and never touches the wallet state: it
    answers "0" when no provider is injected or the balance query rejects,
    and the formatted balance when the query is answered. *)
Theorem getBalance_falls_back (ethereum : option (Ethereum World Resolver))
    addr (s : Sys World) :
  (exists v s',
      getBalance formatEther ethereum addr s = (Returned v, s') /\ wallet s' = wallet s) /\
  (ethereum = None -> getBalance formatEther ethereum addr s = (Returned "0", s)) /\
  (forall eth err w,
      ethereum = Some eth ->
      provider_getBalance eth addr (world s) = (Thrown err, w) ->
      fst (getBalance formatEther ethereum addr s) = Returned "0") /\
  (forall eth b w,
      ethereum = Some eth ->
      provider_getBalance eth addr (world s) = (Returned b, w) ->
      fst (getBalance formatEther ethereum addr s) = Returned (formatEther b)).
Proof.
  pose proof (getBalance_cases ethereum addr s) as H.
  split; [|split; [|split]].
  - destruct (getBalance_console ethereum addr s) as (v & s' & Hrun & Hw & _).
    now exists v, s'.
  - intros ->. exact H.
  - intros eth err w -> Hq. rewrite Hq in H. now rewrite H.
  - intros eth b w -> Hq. rewrite Hq in H. now rewrite H.
Qed.

(** X3. [getENSInfo] short-circuits: without a provider, or with a chain
    id given that is not "0x1", it returns two nulls and leaves everything
    as it was: nothing is asked of the provider or of the client library,
    and nothing is logged. *)
Theorem getENSInfo_short_circuits (ethereum : option (Ethereum World Resolver))
    addr (s : Sys World) :
  (forall cid,
      ethereum = None ->
      getENSInfo ethereum addr cid s =
      (Returned {| info_ensName := None; info_ensAvatar := None |}, s)) /\
  (forall c,
      JS.truthy c = true -> c <> "0x1" ->
      getENSInfo ethereum addr (Some c) s =
      (Returned {| info_ensName := None; info_ensAvatar := None |}, s)).
Proof.
  split.
  - intros cid ->. unfold getENSInfo. run. reflexivity.
  - intros c Ht Hne.
    destruct (getENSInfo_given ethereum addr c s Ht) as (i & s' & Hrun & _ & _ & Hoff).
    destruct (Hoff (or_introl Hne)) as [-> ->]. exact Hrun.
Qed.

Lemma connected_ensOnlyOnMainnet a c b i :
  (c <> "0x1" -> i = noEnsInfo) -> ensOnlyOnMainnet (connected a c b i).
Proof.
  intros Hoff Hsome. simpl in *.
  destruct (string_dec c "0x1") as [->|Hne]; [reflexivity|].
  rewrite (Hoff Hne) in Hsome. simpl in Hsome. now destruct Hsome as [H|H]; elim H.
Qed.

(** X4. Given a non-empty chain id, [updateWalletState] always succeeds,
    with or without a provider: afterwards address and chainId are the
    arguments, isConnected = true, userDisconnected = false, and the ENS
    fields are null unless the chain is "0x1". *)
Theorem updateWalletState_with_chain (ethereum : option (Ethereum World Resolver))
    a c (s : Sys World) :
  JS.truthy c = true ->
  fst (updateWalletState formatEther ethereum a (Some c) s) = Returned tt /\
  address (walletAfter (updateWalletState formatEther ethereum a (Some c)) s) = Some a /\
  chainId (walletAfter (updateWalletState formatEther ethereum a (Some c)) s) = Some c /\
  isConnected (walletAfter (updateWalletState formatEther ethereum a (Some c)) s) = true /\
  userDisconnected (walletAfter (updateWalletState formatEther ethereum a (Some c)) s) = false /\
  ensOnlyOnMainnet (walletAfter (updateWalletState formatEther ethereum a (Some c)) s).
Proof.
  intros Ht.
  destruct (updateWalletState_given ethereum a c s Ht) as (b & i & s' & Hrun & Hw & _ & Hoff).
  unfold walletAfter. rewrite Hrun. cbn [fst snd]. rewrite Hw.
  repeat split; auto.
  apply connected_ensOnlyOnMainnet. auto.
Qed.

(** What [updateWalletState] does when it has to ask for the chain id. *)
Lemma updateWalletState_queried (ethereum : option (Ethereum World Resolver))
    a cid (s : Sys World) :
  JS.truthy_opt cid = false ->
  (ethereum = None ->
   updateWalletState formatEther ethereum a cid s =
   (Returned tt,
    Build_Sys (world s) (wallet s)
      (trace s ++ [ConsoleError "更新钱包状态失败:" TypeError]))) /\
  (forall eth err w,
      ethereum = Some eth ->
      request eth eth_chainId (world s) = (Thrown err, w) ->
      updateWalletState formatEther ethereum a cid s =
      (Returned tt,
       Build_Sys w (wallet s)
         (trace s ++ [Requested eth_chainId; ConsoleError "更新钱包状态失败:" err]))) /\
  (forall eth c w,
      ethereum = Some eth ->
      request eth eth_chainId (world s) = (Returned c, w) ->
      fst (updateWalletState formatEther ethereum a cid s) = Returned tt /\
      exists b n v,
        walletAfter (updateWalletState formatEther ethereum a cid) s =
        {| address := Some a; chainId := Some c; isConnected := true; balance := b;
           ensName := n; ensAvatar := v; userDisconnected := false |}).
Proof.
  intros Hfalsy.
  assert (Hrun : updateWalletState formatEther ethereum a cid s =
    tryCatch
      (bind (ethereum_request ethereum eth_chainId) (fun chainId : string =>
         bind (getBalance formatEther ethereum a) (fun balance =>
           bind (getENSInfo ethereum a (Some chainId)) (fun info =>
             set (allFields (connected a chainId balance info))))))
      (fun error => emit (ConsoleError "更新钱包状态失败:" error)) s).
  { unfold updateWalletState. destruct cid as [c|]; [|reflexivity].
    simpl in Hfalsy. now rewrite Hfalsy. }
  rewrite Hrun. unfold walletAfter. rewrite Hrun. unfold tryCatch. rewrite bind_unfold.
  split; [|split].
  - intros Hnone. rewrite (ethereum_request_none ethereum _ _ Hnone). reflexivity.
  - intros eth err w Heth Hq. rewrite (ethereum_request_some ethereum eth _ _ Heth), Hq.
    unfold emit. cbn [fst snd world wallet trace]. now rewrite <- app_assoc.
  - intros eth c w Heth Hq. rewrite (ethereum_request_some ethereum eth _ _ Heth), Hq.
    cbn [fst snd].
    match goal with |- context [bind _ _ ?s0] =>
      destruct (fetch_and_set formatEther ethereum a c s0) as (b & i & s' & Hf & Hw & _) end.
    rewrite Hf. cbn [fst snd]. split; [reflexivity|].
    exists b, (info_ensName i), (info_ensAvatar i). exact Hw.
Qed.

(** X5. Without a chain id, [updateWalletState] depends on the
    [eth_chainId] query: with no provider or a rejected query the wallet
    state is unchanged and the error is logged; with an answer the state
    is written for that chain.  It does not throw in any case. *)
Theorem updateWalletState_queries_chain (ethereum : option (Ethereum World Resolver))
    a cid (s : Sys World) :
  JS.truthy_opt cid = false ->
  (ethereum = None ->
   updateWalletState formatEther ethereum a cid s =
   (Returned tt,
    Build_Sys (world s) (wallet s)
      (trace s ++ [ConsoleError "更新钱包状态失败:" TypeError]))) /\
  (forall eth err w,
      ethereum = Some eth ->
      request eth eth_chainId (world s) = (Thrown err, w) ->
      updateWalletState formatEther ethereum a cid s =
      (Returned tt,
       Build_Sys w (wallet s)
         (trace s ++ [Requested eth_chainId; ConsoleError "更新钱包状态失败:" err]))) /\
  (forall eth c w,
      ethereum = Some eth ->
      request eth eth_chainId (world s) = (Returned c, w) ->
      fst (updateWalletState formatEther ethereum a cid s) = Returned tt /\
      exists b n v,
        walletAfter (updateWalletState formatEther ethereum a cid) s =
        {| address := Some a; chainId := Some c; isConnected := true; balance := b;
           ensName := n; ensAvatar := v; userDisconnected := false |}).
Proof. exact (updateWalletState_queried ethereum a cid s). Qed.

Lemma networks_truthy (key : Network.NetworkKey) :
  JS.truthy (Network.chainId (Network.NETWORKS key)) = true.
Proof. destruct key; reflexivity. Qed.

Lemma getCurrentNetwork_key (key : Network.NetworkKey) :
  getCurrentNetwork (Some (Network.chainId (Network.NETWORKS key))) =
  Some (Network.NETWORKS key).
Proof. destruct key; reflexivity. Qed.

(** Balance, ENS data and the write, for a non-empty chain id. *)
Lemma fetch_given (ethereum : option (Ethereum World Resolver)) a c (s : Sys World) :
  JS.truthy c = true ->
  exists b i s',
    bind (getBalance formatEther ethereum a) (fun balance =>
      bind (getENSInfo ethereum a (Some c)) (fun info =>
        set (allFields (connected a c balance info)))) s = (Returned tt, s') /\
    wallet s' = connected a c b i /\ traceAdds isConsole s s' /\
    (c <> "0x1" -> i = noEnsInfo).
Proof.
  intros Ht. rewrite bind_unfold.
  destruct (getBalance_console ethereum a s) as (b & s1 & -> & Hw1 & Ht1).
  rewrite bind_unfold.
  destruct (getENSInfo_given ethereum a c s1 Ht) as (i & s2 & -> & Hw2 & Ht2 & Hoff).
  rewrite set_allFields. exists b, i. eexists. split; [reflexivity|].
  split; [reflexivity|]. split.
  - destruct (traceAdds_trans _ _ _ _ Ht1 Ht2) as (evs & Hev & Hall).
    exists evs. split; [exact Hev | exact Hall].
  - intros H. now destruct (Hoff (or_introl H)).
Qed.

Lemma unprompted_step (s : Sys World) w wl ev (s' : Sys World) :
  prompts ev = false ->
  unprompted (Build_Sys w wl (trace s ++ [ev])) s' -> unprompted s s'.
Proof.
  intros Hev Hu. eapply unprompted_trans; [|exact Hu]. now apply unprompted_emit.
Qed.

(** The state [updateWalletState] leaves when the provider's chain ids
    are never empty: the old one, or a connected record whose ENS data is
    null off mainnet. *)
Lemma updateWalletState_shape (ethereum : option (Ethereum World Resolver))
    a cid (s : Sys World) :
  answersChainIds ethereum ->
  exists s',
    updateWalletState formatEther ethereum a cid s = (Returned tt, s') /\
    (wallet s' = wallet s \/
     exists c b i, wallet s' = connected a c b i /\ (c <> "0x1" -> i = noEnsInfo)).
Proof.
  intros Hwf.
  destruct (JS.truthy_opt cid) eqn:Hcid.
  - destruct cid as [c|]; [|discriminate]. simpl in Hcid.
    destruct (updateWalletState_given ethereum a c s Hcid)
      as (b & i & s' & Hrun & Hw & _ & Hoff).
    exists s'. split; [exact Hrun|]. right. exists c, b, i. split; [exact Hw|]. auto.
  - assert (Hrun : updateWalletState formatEther ethereum a cid s =
      tryCatch
        (bind (ethereum_request ethereum eth_chainId) (fun chainId : string =>
           bind (getBalance formatEther ethereum a) (fun balance =>
             bind (getENSInfo ethereum a (Some chainId)) (fun info =>
               set (allFields (connected a chainId balance info))))))
        (fun error => emit (ConsoleError "更新钱包状态失败:" error)) s).
    { unfold updateWalletState. destruct cid as [c|]; [|reflexivity].
      simpl in Hcid. now rewrite Hcid. }
    rewrite Hrun. unfold tryCatch. rewrite bind_unfold.
    destruct ethereum as [eth|].
    + rewrite (ethereum_request_some (Some eth) eth _ _ eq_refl).
      destruct (request eth eth_chainId (world s)) as [[c|err] w] eqn:Hq; cbn [fst snd].
      * assert (Ht : JS.truthy c = true) by (eapply Hwf; [reflexivity | exact Hq]).
        match goal with |- context [bind _ _ ?s0] =>
          destruct (fetch_given (Some eth) a c s0 Ht) as (b & i & s' & Hf & Hw & _ & Hoff) end.
        rewrite Hf. exists s'. split; [reflexivity|]. right. now exists c, b, i.
      * eexists. split; [reflexivity|]. now left.
    + rewrite (ethereum_request_none None _ _ eq_refl).
      eexists. split; [reflexivity|]. now left.
Qed.

Lemma connectWallet_shape (ethereum : option (Ethereum World Resolver)) (s : Sys World) :
  answersChainIds ethereum ->
  exists s',
    connectWallet formatEther ethereum s = (Returned tt, s') /\
    (wallet s' = wallet s \/
     exists a c b i, wallet s' = connected a c b i /\ (c <> "0x1" -> i = noEnsInfo)).
Proof.
  intros Hwf. unfold connectWallet. destruct ethereum as [eth|]; cbn [isMetaMaskInstalled negb].
  2:{ eexists. split; [reflexivity|]. now left. }
  unfold tryCatch. rewrite bind_unfold, (ethereum_request_some (Some eth) eth _ _ eq_refl).
  destruct (request eth eth_requestAccounts (world s)) as [[[|a rest]|e] w]; cbn [fst snd].
  - eexists. split; [reflexivity|]. now left.
  - rewrite bind_unfold, (ethereum_request_some (Some eth) eth _ _ eq_refl).
    cbn [fst snd world wallet trace].
    destruct (request eth eth_chainId w) as [[c|e] w'] eqn:Hq; cbn [fst snd Response] in *.
    + assert (Ht : JS.truthy c = true) by (eapply Hwf; [reflexivity | exact Hq]).
      match goal with |- context [bind _ _ ?s0] =>
        destruct (fetch_given (Some eth) a c s0 Ht) as (b & i & s' & Hf & Hw & _ & Hoff) end.
      rewrite Hf. exists s'. split; [reflexivity|]. right. now exists a, c, b, i.
    + eexists. split; [reflexivity|]. now left.
  - eexists. split; [reflexivity|]. now left.
Qed.

(** [refreshConnected] for a non-empty chain id: nothing without a
    connected address, otherwise a write that cannot fail. *)
Lemma refreshConnected_given (ethereum : option (Ethereum World Resolver)) c (s : Sys World) :
  JS.truthy c = true ->
  (JS.truthy_opt (address (wallet s)) = false ->
   refreshConnected formatEther ethereum c s = (Returned tt, s)) /\
  (forall a,
      address (wallet s) = Some a -> JS.truthy a = true ->
      exists b i s',
        refreshConnected formatEther ethereum c s = (Returned tt, s') /\
        wallet s' = connected a c b i /\ traceAdds isConsole s s' /\
        (c <> "0x1" -> i = noEnsInfo)).
Proof.
  intros Ht. unfold refreshConnected. rewrite bind_unfold. unfold get. split.
  - intros Hnone. destruct (address (wallet s)) as [a|]; [|reflexivity].
    simpl in Hnone. now rewrite Hnone.
  - intros a -> Ha. rewrite Ha.
    destruct (updateWalletState_given ethereum a c s Ht) as (b & i & s' & Hrun & Hw & Htr & Hoff).
    exists b, i, s'. repeat split; auto.
Qed.

(** C5. When the provider rejects the switch request with code 4902,
    [switchNetwork] asks it to add the chain, with that network's
    descriptor as the payload; once the add succeeds it runs a silent
    [updateWalletState] with the target chain id for the connected
    address, which leaves that address connected on the target chain, and
    it leaves the state alone when no address is connected. *)
Theorem switchNetwork_adds_unknown_chain
    (eth : Ethereum World Resolver) key (sys : Sys World) e w1 :
  let network := Network.NETWORKS key in
  let switch := wallet_switchEthereumChain (Network.chainId network) in
  let add := wallet_addEthereumChain network in
  request eth switch (world sys) = (Thrown e, w1) ->
  code e = Some 4902%Z ->
  (exists later,
      trace (snd (switchNetwork formatEther (Some eth) key sys)) =
      (trace sys ++ [Requested switch; Requested add] ++ later)%list) /\
  (forall w2,
      request eth add w1 = (Returned tt, w2) ->
      let sys2 := Build_Sys w2 (wallet sys)
                    (trace sys ++ [Requested switch; Requested add]) in
      switchNetwork formatEther (Some eth) key sys =
      match address (wallet sys) with
      | Some a =>
          if JS.truthy a
          then updateWalletState formatEther (Some eth) a (Some (Network.chainId network)) sys2
          else (Returned tt, sys2)
      | None => (Returned tt, sys2)
      end /\
      unprompted sys2 (snd (switchNetwork formatEther (Some eth) key sys)) /\
      (JS.truthy_opt (address (wallet sys)) = false ->
       walletAfter (switchNetwork formatEther (Some eth) key) sys = wallet sys) /\
      (forall a,
          address (wallet sys) = Some a -> JS.truthy a = true ->
          fst (switchNetwork formatEther (Some eth) key sys) = Returned tt /\
          address (walletAfter (switchNetwork formatEther (Some eth) key) sys) = Some a /\
          chainId (walletAfter (switchNetwork formatEther (Some eth) key) sys) =
            Some (Network.chainId network) /\
          isConnected (walletAfter (switchNetwork formatEther (Some eth) key) sys) = true /\
          userDisconnected (walletAfter (switchNetwork formatEther (Some eth) key) sys)
            = false /\
          ensOnlyOnMainnet (walletAfter (switchNetwork formatEther (Some eth) key) sys))).
Proof.
  intros network switch add Hswitch Hcode.
  assert (Hrun : switchNetwork formatEther (Some eth) key sys =
    tryCatch
      (bind (ethereum_request (Some eth) add) (fun _ =>
         refreshConnected formatEther (Some eth) (Network.chainId network)))
      (fun addError => emit (ConsoleError "添加网络失败:" addError))
      (Build_Sys w1 (wallet sys) (trace sys ++ [Requested switch]))).
  { unfold switchNetwork. cbv zeta. fold network. fold switch. fold add.
    unfold tryCatch at 1. rewrite bind_unfold.
    rewrite (ethereum_request_some (Some eth) eth _ _ eq_refl), Hswitch. cbn [fst snd].
    unfold codeIs. rewrite Hcode. reflexivity. }
  assert (Hadded : forall w2,
    request eth add w1 = (Returned tt, w2) ->
    switchNetwork formatEther (Some eth) key sys =
    refreshConnected formatEther (Some eth) (Network.chainId network)
      (Build_Sys w2 (wallet sys) (trace sys ++ [Requested switch; Requested add]))).
  { intros w2 Hadd. rewrite Hrun. unfold tryCatch. rewrite bind_unfold.
    rewrite (ethereum_request_some (Some eth) eth _ _ eq_refl).
    cbn [fst snd world wallet trace]. rewrite Hadd. cbn [fst snd].
    rewrite <- app_assoc. cbn [app].
    match goal with |- context [refreshConnected _ _ ?c ?s0] =>
      destruct (refreshConnected_run formatEther (Some eth) c s0) as (s' & -> & _) end.
    reflexivity. }
  split.
  - rewrite Hrun. unfold tryCatch. rewrite bind_unfold.
    rewrite (ethereum_request_some (Some eth) eth _ _ eq_refl).
    cbn [fst snd world wallet trace].
    destruct (request eth add w1) as [[[]|e'] w2]; cbn [fst snd].
    + match goal with |- context [refreshConnected _ _ ?c ?s0] =>
        destruct (refreshConnected_run formatEther (Some eth) c s0)
          as (s' & -> & _ & (evs & Ht & _)) end.
      exists evs. cbn [fst snd trace] in *. rewrite Ht, <- !app_assoc. reflexivity.
    + exists [ConsoleError "添加网络失败:" e']. cbn [fst snd trace emit].
      rewrite <- !app_assoc. reflexivity.
  - intros w2 Hadd sys2. rewrite (Hadded w2 Hadd). fold sys2.
    split; [|split; [|split]].
    + unfold refreshConnected. rewrite bind_unfold. unfold get. cbn [fst snd].
      subst sys2. cbn [wallet].
      destruct (address (wallet sys)) as [a|]; [destruct (JS.truthy a)|]; reflexivity.
    + destruct (refreshConnected_run formatEther (Some eth) (Network.chainId network) sys2)
        as (s' & -> & _ & Hu). exact Hu.
    + intros Hnone. unfold walletAfter. rewrite (Hadded w2 Hadd). fold sys2.
      unfold refreshConnected. rewrite bind_unfold. unfold get. subst sys2. cbn [wallet].
      destruct (address (wallet sys)) as [a|]; cbn in Hnone |- *; [|reflexivity].
      rewrite Hnone. reflexivity.
    + intros a Ha Hta. unfold walletAfter. rewrite (Hadded w2 Hadd). fold sys2.
      destruct (refreshConnected_given (Some eth) (Network.chainId network) sys2
                  (networks_truthy key)) as [_ Hsome].
      destruct (Hsome a Ha Hta) as (b & i & s' & -> & Hw & _ & Hoff).
      cbn [fst snd]. rewrite Hw.
      cbn [address chainId isConnected userDisconnected connected].
      repeat split; auto.
      apply connected_ensOnlyOnMainnet. exact Hoff.
Qed.

Lemma switchNetwork_shape (ethereum : option (Ethereum World Resolver)) key (s : Sys World) :
  exists s',
    switchNetwork formatEther ethereum key s = (Returned tt, s') /\
    (wallet s' = wallet s \/
     exists a b i,
       wallet s' = connected a (Network.chainId (Network.NETWORKS key)) b i /\
       (Network.chainId (Network.NETWORKS key) <> "0x1" -> i = noEnsInfo)).
Proof.
  pose proof (networks_truthy key) as Ht.
  assert (Hrefresh : forall s0 : Sys World, exists s',
    refreshConnected formatEther ethereum (Network.chainId (Network.NETWORKS key)) s0 =
      (Returned tt, s') /\
    (wallet s' = wallet s0 \/
     exists a b i,
       wallet s' = connected a (Network.chainId (Network.NETWORKS key)) b i /\
       (Network.chainId (Network.NETWORKS key) <> "0x1" -> i = noEnsInfo))).
  { intros s0. destruct (refreshConnected_given ethereum _ s0 Ht) as [Hnone Hsome].
    destruct (address (wallet s0)) as [a|] eqn:Ha.
    - destruct (JS.truthy a) eqn:Hta.
      + destruct (Hsome a eq_refl Hta) as (b & i & s' & Hrun & Hw & _ & Hoff).
        exists s'. split; [exact Hrun|]. right. now exists a, b, i.
      + exists s0. split; [apply Hnone; simpl; exact Hta | now left].
    - exists s0. split; [now apply Hnone | now left]. }
  unfold switchNetwork. destruct ethereum as [eth|].
  2:{ exists s. split; [reflexivity | now left]. }
  cbv zeta. unfold tryCatch. rewrite bind_unfold.
  rewrite (ethereum_request_some (Some eth) eth _ _ eq_refl).
  destruct (request eth _ (world s)) as [[[]|e] w]; cbn [fst snd].
  - match goal with |- context [refreshConnected _ _ _ ?s0] =>
      destruct (Hrefresh s0) as (s' & -> & Hw) end.
    exists s'. split; [reflexivity | exact Hw].
  - destruct (codeIs e 4902).
    + rewrite bind_unfold, (ethereum_request_some (Some eth) eth _ _ eq_refl).
      cbn [fst snd world wallet trace].
      destruct (request eth _ w) as [[[]|e'] w']; cbn [fst snd].
      * match goal with |- context [refreshConnected _ _ _ ?s0] =>
          destruct (Hrefresh s0) as (s' & -> & Hw) end.
        exists s'. split; [reflexivity | exact Hw].
      * eexists. split; [reflexivity | now left].
    + eexists. split; [reflexivity | now left].
Qed.

Lemma switchNetwork_unprompted (ethereum : option (Ethereum World Resolver)) key
    (s : Sys World) :
  unprompted s (snd (switchNetwork formatEther ethereum key s)).
Proof.
  unfold switchNetwork. destruct ethereum as [eth|]; [|apply unprompted_refl].
  cbv zeta. unfold tryCatch. rewrite bind_unfold.
  rewrite (ethereum_request_some (Some eth) eth _ _ eq_refl).
  destruct (request eth _ (world s)) as [[[]|e] w]; cbn [fst snd].
  - match goal with |- context [refreshConnected _ _ ?c ?s0] =>
      destruct (refreshConnected_run formatEther (Some eth) c s0) as (s' & -> & _ & Hu) end.
    cbn [snd]. then_logged Hu.
  - destruct (codeIs e 4902).
    + rewrite bind_unfold, (ethereum_request_some (Some eth) eth _ _ eq_refl).
      cbn [fst snd world wallet trace].
      destruct (request eth _ w) as [[[]|e'] w']; cbn [fst snd].
      * match goal with |- context [refreshConnected _ _ ?c ?s0] =>
          destruct (refreshConnected_run formatEther (Some eth) c s0) as (s' & -> & _ & Hu) end.
        cbn [snd]. then_logged Hu.
      * unfold emit. cbn [snd world wallet trace]. logged.
    + unfold emit. cbn [snd world wallet trace]. logged.
Qed.

Lemma handleAccountsChanged_unprompted (ethereum : option (Ethereum World Resolver))
    snapshot accounts (s : Sys World) :
  fst (handleAccountsChanged formatEther ethereum snapshot accounts s) = Returned tt /\
  unprompted s (snd (handleAccountsChanged formatEther ethereum snapshot accounts s)).
Proof.
  unfold handleAccountsChanged. rewrite bind_unfold. unfold emit.
  destruct accounts as [|first rest].
  - unfold disconnectWallet. rewrite set_allFields. cbn [fst snd world wallet trace].
    split; [reflexivity | logged].
  - destruct (negb (strictEq first (address snapshot))).
    + match goal with |- context [updateWalletState _ _ _ _ ?s0] =>
        destruct (updateWalletState_run formatEther ethereum first None s0)
          as (s' & -> & _ & Hu) end.
      split; [reflexivity|]. cbn [snd]. then_logged Hu.
    + unfold ret. cbn [fst snd]. split; [reflexivity | logged].
Qed.

Lemma handleChainChanged_unprompted (ethereum : option (Ethereum World Resolver))
    snapshot c (s : Sys World) :
  fst (handleChainChanged formatEther ethereum snapshot c s) = Returned tt /\
  unprompted s (snd (handleChainChanged formatEther ethereum snapshot c s)).
Proof.
  unfold handleChainChanged. rewrite bind_unfold. unfold emit.
  assert (Hidle : forall w wl,
    fst (ret tt (Build_Sys (World:=World) w wl (trace s ++ [ConsoleLog "handleChainChanged"]))) =
      Returned tt /\
    unprompted s (snd (ret tt (Build_Sys w wl (trace s ++ [ConsoleLog "handleChainChanged"]))))).
  { intros w wl. unfold ret. cbn [fst snd]. split; [reflexivity | logged]. }
  destruct (address snapshot) as [a|]; [|apply Hidle].
  destruct (JS.truthy a && negb (strictEq c (chainId snapshot))); [|apply Hidle].
  match goal with |- context [updateWalletState _ _ _ _ ?s0] =>
    destruct (updateWalletState_run formatEther ethereum a (Some c) s0)
      as (s' & -> & _ & Hu) end.
  split; [reflexivity|]. cbn [snd]. then_logged Hu.
Qed.

Lemma checkInitialConnection_unprompted (ethereum : option (Ethereum World Resolver))
    snapshot (s : Sys World) :
  fst (checkInitialConnection formatEther ethereum snapshot s) = Returned tt /\
  unprompted s (snd (checkInitialConnection formatEther ethereum snapshot s)).
Proof.
  unfold checkInitialConnection.
  destruct (userDisconnected snapshot); [split; [reflexivity | apply unprompted_refl]|].
  destruct (isConnected snapshot); [split; [reflexivity | apply unprompted_refl]|].
  unfold tryCatch. rewrite bind_unfold.
  destruct ethereum as [eth|].
  - rewrite (ethereum_request_some (Some eth) eth _ _ eq_refl).
    destruct (request eth eth_accounts (world s)) as [[[|first rest]|e] w]; cbn [fst snd].
    + unfold ret. cbn [fst snd]. split; [reflexivity | logged].
    + match goal with |- context [updateWalletState _ _ _ _ ?s0] =>
        destruct (updateWalletState_run formatEther (Some eth) first None s0)
          as (s' & -> & _ & Hu) end.
      split; [reflexivity|]. cbn [snd]. then_logged Hu.
    + unfold emit. cbn [fst snd world wallet trace]. split; [reflexivity | logged].
  - rewrite (ethereum_request_none None _ _ eq_refl).
    unfold emit. cbn [fst snd]. split; [reflexivity | logged].
Qed.

(** X6. Only [connectWallet] can raise the permission prompt: the silent
    update, the network switch, both event handlers and the mount effect
    never issue [eth_requestAccounts] (and the handlers and the mount
    effect never throw), whereas [connectWallet] with a provider present
    issues it before anything else. *)
Theorem only_connectWallet_prompts (ethereum : option (Ethereum World Resolver))
    (s : Sys World) :
  (forall a cid, unprompted s (snd (updateWalletState formatEther ethereum a cid s))) /\
  (forall key, unprompted s (snd (switchNetwork formatEther ethereum key s))) /\
  (forall snapshot accounts,
      fst (handleAccountsChanged formatEther ethereum snapshot accounts s) = Returned tt /\
      unprompted s (snd (handleAccountsChanged formatEther ethereum snapshot accounts s))) /\
  (forall snapshot c,
      fst (handleChainChanged formatEther ethereum snapshot c s) = Returned tt /\
      unprompted s (snd (handleChainChanged formatEther ethereum snapshot c s))) /\
  (fst (mount formatEther ethereum s) = Returned tt /\
   unprompted s (snd (mount formatEther ethereum s))) /\
  (forall eth,
      ethereum = Some eth ->
      exists later,
        trace (snd (connectWallet formatEther ethereum s)) =
        (trace s ++ Requested eth_requestAccounts :: later)%list).
Proof.
  split; [|split; [|split; [|split; [|split]]]].
  - intros a cid.
    destruct (updateWalletState_run formatEther ethereum a cid s) as (s' & -> & _ & Hu).
    exact Hu.
  - intros key. apply switchNetwork_unprompted.
  - intros snapshot accounts. apply handleAccountsChanged_unprompted.
  - intros snapshot c. apply handleChainChanged_unprompted.
  - unfold mount. rewrite bind_unfold. unfold get, mountEffect.
    destruct ethereum as [eth|]; cbn [isMetaMaskInstalled negb].
    + unfold bind, emit. cbn [fst snd world wallet trace].
      match goal with |- context [checkInitialConnection _ _ ?snap ?s0] =>
        destruct (checkInitialConnection_unprompted (Some eth) snap s0) as [Hr Hu] end.
      destruct (checkInitialConnection _ _ _ _) as [[[]|e] s']; cbn [fst snd] in *;
        [|discriminate].
      split; [reflexivity|]. then_logged Hu.
    + split; [reflexivity | apply unprompted_refl].
  - intros eth ->. unfold connectWallet. cbn [isMetaMaskInstalled negb].
    unfold tryCatch. rewrite bind_unfold, (ethereum_request_some (Some eth) eth _ _ eq_refl).
    destruct (request eth eth_requestAccounts (world s)) as [[[|a rest]|e] w]; cbn [fst snd].
    + exists []. reflexivity.
    + rewrite bind_unfold, (ethereum_request_some (Some eth) eth _ _ eq_refl).
      cbn [fst snd world wallet trace].
      destruct (request eth eth_chainId w) as [[c|e] w']; cbn [fst snd Response] in *.
      * match goal with |- context [bind _ _ ?s0] =>
          destruct (fetch_and_set formatEther (Some eth) a c s0)
            as (b & i & s' & -> & _ & (evs & Ht & _)) end.
        cbn [snd trace] in *. rewrite Ht, <- !app_assoc. eexists. reflexivity.
      * unfold emit. cbn [snd trace]. rewrite <- !app_assoc. eexists. reflexivity.
    + unfold emit. cbn [snd trace]. rewrite <- !app_assoc. eexists. reflexivity.
Qed.

(** X7. [switchNetwork] failure paths: without a provider it does nothing
    at all; when the switch is rejected with an error whose code is a
    number other than 4902 it logs and asks for nothing more; when the
    chain is unknown (code 4902) and the add-chain request is rejected too
    it logs that.  In all three it returns with the wallet state it
    started from. *)
Theorem switchNetwork_failures key (s : Sys World) :
  let network := Network.NETWORKS key in
  let switch := wallet_switchEthereumChain (Network.chainId network) in
  let add := wallet_addEthereumChain network in
  switchNetwork formatEther (@None (Ethereum World Resolver)) key s = (Returned tt, s) /\
  (forall (eth : Ethereum World Resolver) err c w1,
      request eth switch (world s) = (Thrown err, w1) ->
      code err = Some c -> c <> 4902%Z ->
      switchNetwork formatEther (Some eth) key s =
      (Returned tt,
       Build_Sys w1 (wallet s)
         (trace s ++ [Requested switch; ConsoleError "切换网络失败:" err]))) /\
  (forall (eth : Ethereum World Resolver) err w1 err2 w2,
      request eth switch (world s) = (Thrown err, w1) ->
      code err = Some 4902%Z ->
      request eth add w1 = (Thrown err2, w2) ->
      switchNetwork formatEther (Some eth) key s =
      (Returned tt,
       Build_Sys w2 (wallet s)
         (trace s ++ [Requested switch; Requested add;
                      ConsoleError "添加网络失败:" err2]))).
Proof.
  intros network switch add. split; [reflexivity|]. split.
  - intros eth err c w1 Hq Hc Hne.
    assert (Hcode : codeIs err 4902 = false).
    { unfold codeIs. rewrite Hc. now apply Z.eqb_neq. }
    unfold switchNetwork. cbv zeta. fold network. fold switch.
    unfold tryCatch. rewrite bind_unfold.
    rewrite (ethereum_request_some (Some eth) eth _ _ eq_refl), Hq.
    cbn [fst snd]. rewrite Hcode. unfold emit. cbn [world wallet trace].
    now rewrite <- app_assoc.
  - intros eth err w1 err2 w2 Hq Hc Hadd.
    assert (Hcode : codeIs err 4902 = true) by (unfold codeIs; now rewrite Hc).
    unfold switchNetwork. cbv zeta.
    fold network. fold switch. fold add.
    unfold tryCatch. rewrite bind_unfold.
    rewrite (ethereum_request_some (Some eth) eth _ _ eq_refl), Hq.
    cbn [fst snd]. rewrite Hcode.
    rewrite bind_unfold, (ethereum_request_some (Some eth) eth _ _ eq_refl).
    cbn [fst snd world wallet trace]. rewrite Hadd. cbn [fst snd].
    unfold emit. cbn [world wallet trace]. now rewrite <- !app_assoc.
Qed.

(** X8. When the provider accepts the switch directly, no add-chain
    request is made.  With an address connected the write cannot fail: the
    state keeps the address, takes the target chain id (so
    [getCurrentNetwork] finds the target network), is connected, and has
    ENS data only on mainnet.  With no address connected the wallet state
    is untouched. *)
Theorem switchNetwork_direct (eth : Ethereum World Resolver) key (s : Sys World) w1 :
  let network := Network.NETWORKS key in
  let switch := wallet_switchEthereumChain (Network.chainId network) in
  request eth switch (world s) = (Returned tt, w1) ->
  (JS.truthy_opt (address (wallet s)) = false ->
   switchNetwork formatEther (Some eth) key s =
   (Returned tt, Build_Sys w1 (wallet s) (trace s ++ [Requested switch]))) /\
  (forall a,
      address (wallet s) = Some a -> JS.truthy a = true ->
      fst (switchNetwork formatEther (Some eth) key s) = Returned tt /\
      address (walletAfter (switchNetwork formatEther (Some eth) key) s) = Some a /\
      chainId (walletAfter (switchNetwork formatEther (Some eth) key) s) =
        Some (Network.chainId network) /\
      currentNetwork (walletAfter (switchNetwork formatEther (Some eth) key) s) =
        Some network /\
      isConnected (walletAfter (switchNetwork formatEther (Some eth) key) s) = true /\
      userDisconnected (walletAfter (switchNetwork formatEther (Some eth) key) s) = false /\
      ensOnlyOnMainnet (walletAfter (switchNetwork formatEther (Some eth) key) s) /\
      traceAdds isConsole
        (Build_Sys w1 (wallet s) (trace s ++ [Requested switch]))
        (snd (switchNetwork formatEther (Some eth) key s))).
Proof.
  intros network switch Hq.
  assert (Hrun : switchNetwork formatEther (Some eth) key s =
    tryCatch
      (refreshConnected formatEther (Some eth) (Network.chainId network))
      (fun error =>
         if codeIs error 4902 then
           tryCatch
             (bind (ethereum_request (Some eth) (wallet_addEthereumChain network)) (fun _ =>
                refreshConnected formatEther (Some eth) (Network.chainId network)))
             (fun addError => emit (ConsoleError "添加网络失败:" addError))
         else emit (ConsoleError "切换网络失败:" error))
      (Build_Sys w1 (wallet s) (trace s ++ [Requested switch]))).
  { unfold switchNetwork. cbv zeta. fold network. fold switch.
    unfold tryCatch at 1 3. rewrite bind_unfold.
    rewrite (ethereum_request_some (Some eth) eth _ _ eq_refl), Hq. reflexivity. }
  destruct (refreshConnected_given (Some eth) (Network.chainId network)
              (Build_Sys w1 (wallet s) (trace s ++ [Requested switch]))
              (networks_truthy key)) as [Hnone Hsome].
  cbn [wallet] in Hnone, Hsome.
  unfold walletAfter. rewrite Hrun. unfold tryCatch. split.
  - intros Hfalsy. now rewrite (Hnone Hfalsy).
  - intros a Ha Hta.
    destruct (Hsome a Ha Hta) as (b & i & s' & -> & Hw & Htr & Hoff).
    cbn [fst snd]. rewrite Hw. cbn [address chainId isConnected userDisconnected connected].
    repeat split; auto.
    + unfold currentNetwork. cbn [chainId connected]. apply getCurrentNetwork_key.
    + apply connected_ensOnlyOnMainnet. exact Hoff.
Qed.

(** X9. ENS data only on mainnet is kept by every operation but
    [setWallet], provided the provider never answers [eth_chainId] with an
    empty string. *)
Theorem ens_only_on_mainnet_kept (ethereum : option (Ethereum World Resolver))
    (s : Sys World) :
  answersChainIds ethereum ->
  ensOnlyOnMainnet (wallet s) ->
  ensOnlyOnMainnet (walletAfter resetWallet s) /\
  ensOnlyOnMainnet (walletAfter (connectWallet formatEther ethereum) s) /\
  (forall a cid,
      ensOnlyOnMainnet (walletAfter (updateWalletState formatEther ethereum a cid) s)) /\
  ensOnlyOnMainnet (walletAfter disconnectWallet s) /\
  (forall key, ensOnlyOnMainnet (walletAfter (switchNetwork formatEther ethereum key) s)).
Proof.
  intros Hwf Hinv. unfold walletAfter.
  split; [|split; [|split; [|split]]].
  - unfold resetWallet. rewrite set_allFields. intros [H|H]; now elim H.
  - destruct (connectWallet_shape ethereum s Hwf) as (s' & Hrun & Hcases).
    rewrite Hrun. cbn [snd]. destruct Hcases as [->|(a & c & b & i & -> & Hoff)].
    + exact Hinv.
    + now apply connected_ensOnlyOnMainnet.
  - intros a cid.
    destruct (updateWalletState_shape ethereum a cid s Hwf) as (s' & Hrun & Hcases).
    rewrite Hrun. cbn [snd]. destruct Hcases as [->|(c & b & i & -> & Hoff)].
    + exact Hinv.
    + now apply connected_ensOnlyOnMainnet.
  - unfold disconnectWallet. rewrite set_allFields. intros [H|H]; now elim H.
  - intros key.
    destruct (switchNetwork_shape ethereum key s) as (s' & Hrun & Hcases).
    rewrite Hrun. cbn [snd]. destruct Hcases as [->|(a & b & i & -> & Hoff)].
    + exact Hinv.
    + now apply connected_ensOnlyOnMainnet.
Qed.

(** X10. A connected wallet has not opted out: isConnected = true implies
    userDisconnected = false after every operation but [setWallet], for
    any provider. *)
Theorem connected_not_opted_out_kept (ethereum : option (Ethereum World Resolver))
    (s : Sys World) :
  connectedNotOptedOut (wallet s) ->
  connectedNotOptedOut (walletAfter resetWallet s) /\
  connectedNotOptedOut (walletAfter (connectWallet formatEther ethereum) s) /\
  (forall a cid,
      connectedNotOptedOut (walletAfter (updateWalletState formatEther ethereum a cid) s)) /\
  connectedNotOptedOut (walletAfter disconnectWallet s) /\
  (forall key,
      connectedNotOptedOut (walletAfter (switchNetwork formatEther ethereum key) s)).
Proof.
  intros Hinv. unfold walletAfter.
  split; [|split; [|split; [|split]]].
  - unfold resetWallet. rewrite set_allFields. intros H. reflexivity.
  - destruct (connectWallet_run formatEther ethereum s) as (s' & Hrun & Hcases).
    rewrite Hrun. cbn [snd]. destruct Hcases as [->|(a & c & b & i & ->)];
      [exact Hinv | intros _; reflexivity].
  - intros a cid.
    destruct (updateWalletState_run formatEther ethereum a cid s)
      as (s' & Hrun & Hcases & _).
    rewrite Hrun. cbn [snd]. destruct Hcases as [->|(c & b & i & ->)];
      [exact Hinv | intros _; reflexivity].
  - unfold disconnectWallet. rewrite set_allFields. intros H. discriminate H.
  - intros key.
    destruct (switchNetwork_run formatEther ethereum key s) as (s' & Hrun & Hcases).
    rewrite Hrun. cbn [snd]. destruct Hcases as [->|(a & c & b & i & ->)];
      [exact Hinv | intros _; reflexivity].
Qed.

(** X11. [connectWallet] edge cases: without a provider it only raises the
    notice; when the provider returns an empty account list it writes
    nothing and queries no chain id. *)
Theorem connectWallet_nothing_to_connect (s : Sys World) :
  connectWallet formatEther (@None (Ethereum World Resolver)) s =
    (Returned tt,
     Build_Sys (world s) (wallet s) (trace s ++ [Alert "请安装 MetaMask 钱包！"])) /\
  (forall (eth : Ethereum World Resolver) w,
      request eth eth_requestAccounts (world s) = (Returned [], w) ->
      connectWallet formatEther (Some eth) s =
      (Returned tt, Build_Sys w (wallet s) (trace s ++ [Requested eth_requestAccounts]))).
Proof.
  split; [reflexivity|].
  intros eth w Hq. unfold connectWallet. cbn [isMetaMaskInstalled negb].
  unfold tryCatch. rewrite bind_unfold, (ethereum_request_some (Some eth) eth _ _ eq_refl), Hq.
  reflexivity.
Qed.

Lemma strictEq_spec (a : string) (current : option string) :
  strictEq a current = true <-> current = Some a.
Proof.
  destruct current as [c|]; simpl; [|split; discriminate].
  rewrite String.eqb_eq. split; [now intros -> | now intros [= ->]].
Qed.

Lemma strictEq_false (a : string) (current : option string) :
  current <> Some a -> strictEq a current = false.
Proof.
  intros H. destruct (strictEq a current) eqn:E; [|reflexivity].
  apply strictEq_spec in E. contradiction.
Qed.

(** X12. An [accountsChanged] event with accounts: when the first account
    is the address of the render that created the handler, nothing is
    done; otherwise the handler is a silent [updateWalletState] for that
    account with the chain id left to the provider, so an answered
    [eth_chainId] makes that account the connected address and a rejected
    one leaves the wallet state as it was. *)
Theorem handleAccountsChanged_accounts (ethereum : option (Ethereum World Resolver))
    snapshot first rest (s : Sys World) :
  let noted :=
    Build_Sys (world s) (wallet s) (trace s ++ [ConsoleLog "handleAccountsChanged"]) in
  (address snapshot = Some first ->
   handleAccountsChanged formatEther ethereum snapshot (first :: rest) s =
   (Returned tt, noted)) /\
  (address snapshot <> Some first ->
   handleAccountsChanged formatEther ethereum snapshot (first :: rest) s =
     updateWalletState formatEther ethereum first None noted /\
   (forall eth c w,
       ethereum = Some eth ->
       request eth eth_chainId (world s) = (Returned c, w) ->
       exists b n v,
         walletAfter (handleAccountsChanged formatEther ethereum snapshot (first :: rest)) s =
         {| address := Some first; chainId := Some c; isConnected := true; balance := b;
            ensName := n; ensAvatar := v; userDisconnected := false |}) /\
   (forall eth err w,
       ethereum = Some eth ->
       request eth eth_chainId (world s) = (Thrown err, w) ->
       walletAfter (handleAccountsChanged formatEther ethereum snapshot (first :: rest)) s =
       wallet s)).
Proof.
  intros noted.
  assert (Hsame : address snapshot = Some first ->
    handleAccountsChanged formatEther ethereum snapshot (first :: rest) s =
    (Returned tt, noted)).
  { intros Hsame. unfold handleAccountsChanged. rewrite bind_unfold. unfold emit.
    fold noted. apply strictEq_spec in Hsame. rewrite Hsame. reflexivity. }
  assert (Hdiff : address snapshot <> Some first ->
    handleAccountsChanged formatEther ethereum snapshot (first :: rest) s =
    updateWalletState formatEther ethereum first None noted).
  { intros Hdiff. unfold handleAccountsChanged. rewrite bind_unfold. unfold emit.
    fold noted. rewrite (strictEq_false _ _ Hdiff). reflexivity. }
  split; [exact Hsame|]. intros Hne. split; [exact (Hdiff Hne)|].
  destruct (updateWalletState_queried ethereum first None noted eq_refl)
    as (_ & Hrej & Hans).
  unfold walletAfter in *. rewrite (Hdiff Hne). split.
  - intros eth c w Heth Hq. now destruct (Hans eth c w Heth Hq).
  - intros eth err w Heth Hq. now rewrite (Hrej eth err w Heth Hq).
Qed.

(** X13. A [chainChanged] event: with no address in the render that
    created the handler, or with the chain id that render already had,
    nothing is done; otherwise (for a non-empty chain id) the write cannot
    fail: the state takes the new chain id, keeps that render's address,
    is connected, and its ENS fields are null unless the chain is "0x1". *)
Theorem handleChainChanged_updates (ethereum : option (Ethereum World Resolver))
    snapshot c (s : Sys World) :
  let noted :=
    Build_Sys (world s) (wallet s) (trace s ++ [ConsoleLog "handleChainChanged"]) in
  (JS.truthy_opt (address snapshot) = false \/ chainId snapshot = Some c ->
   handleChainChanged formatEther ethereum snapshot c s = (Returned tt, noted)) /\
  (forall a,
      address snapshot = Some a -> JS.truthy a = true ->
      chainId snapshot <> Some c -> JS.truthy c = true ->
      fst (handleChainChanged formatEther ethereum snapshot c s) = Returned tt /\
      address (walletAfter (handleChainChanged formatEther ethereum snapshot c) s) = Some a /\
      chainId (walletAfter (handleChainChanged formatEther ethereum snapshot c) s) = Some c /\
      isConnected (walletAfter (handleChainChanged formatEther ethereum snapshot c) s) = true /\
      userDisconnected (walletAfter (handleChainChanged formatEther ethereum snapshot c) s)
        = false /\
      (c <> "0x1" ->
       ensName (walletAfter (handleChainChanged formatEther ethereum snapshot c) s) = None /\
       ensAvatar (walletAfter (handleChainChanged formatEther ethereum snapshot c) s) = None)).
Proof.
  intros noted. unfold walletAfter, handleChainChanged. rewrite bind_unfold. unfold emit.
  fold noted. split.
  - intros [Hnone|Hsame].
    + destruct (address snapshot) as [a|]; [|reflexivity].
      simpl in Hnone. rewrite Hnone. reflexivity.
    + apply strictEq_spec in Hsame. rewrite Hsame.
      destruct (address snapshot) as [a|]; [|reflexivity].
      now rewrite andb_false_r.
  - intros a -> Hta Hdiff Htc. rewrite Hta, (strictEq_false _ _ Hdiff). cbn [negb andb].
    destruct (updateWalletState_given ethereum a c noted Htc)
      as (b & i & s' & -> & Hw & _ & Hoff).
    cbn [fst snd]. rewrite Hw. cbn [address chainId isConnected userDisconnected ensName
                                    ensAvatar connected].
    repeat split; auto;
      match goal with H : c <> _ |- _ => rewrite (Hoff (or_introl H)) end; reflexivity.
Qed.

(** X14. Mounting on a fresh session (not opted out, not connected):
    without a provider nothing happens at all; with one, the two listeners
    are registered and [eth_accounts] is asked: a rejection or an empty
    list leaves the wallet state as it was, and a non-empty list starts a
    silent [updateWalletState] for its first account. *)
Theorem mount_fresh_session (s : Sys World) :
  userDisconnected (wallet s) = false ->
  isConnected (wallet s) = false ->
  let listening :=
    (trace s ++ [Listening "accountsChanged"; Listening "chainChanged";
                 Requested eth_accounts])%list in
  mount formatEther (@None (Ethereum World Resolver)) s = (Returned tt, s) /\
  (forall (eth : Ethereum World Resolver) err w,
      request eth eth_accounts (world s) = (Thrown err, w) ->
      mount formatEther (Some eth) s =
      (Returned tt,
       Build_Sys w (wallet s) (listening ++ [ConsoleError "检查连接状态失败:" err]))) /\
  (forall (eth : Ethereum World Resolver) w,
      request eth eth_accounts (world s) = (Returned [], w) ->
      mount formatEther (Some eth) s = (Returned tt, Build_Sys w (wallet s) listening)) /\
  (forall (eth : Ethereum World Resolver) first rest w,
      request eth eth_accounts (world s) = (Returned (first :: rest), w) ->
      mount formatEther (Some eth) s =
      updateWalletState formatEther (Some eth) first None
        (Build_Sys w (wallet s) listening)).
Proof.
  intros Hflag Hconn listening.
  split; [reflexivity|].
  assert (Hrun : forall eth : Ethereum World Resolver,
    mount formatEther (Some eth) s =
    tryCatch
      (bind (ethereum_request (Some eth) eth_accounts) (fun accounts : list string =>
         match accounts with
         | first :: _ => updateWalletState formatEther (Some eth) first None
         | [] => ret tt
         end))
      (fun error => emit (ConsoleError "检查连接状态失败:" error))
      (Build_Sys (world s) (wallet s)
         (trace s ++ [Listening "accountsChanged"; Listening "chainChanged"]))).
  { intros eth. unfold mount. rewrite bind_unfold. unfold get, mountEffect.
    cbn [isMetaMaskInstalled negb]. unfold bind at 1 2, emit.
    cbn [world wallet trace]. unfold checkInitialConnection. rewrite Hflag, Hconn.
    now rewrite <- app_assoc. }
  assert (Hl : forall w : World,
    Build_Sys w (wallet s)
      ((trace s ++ [Listening "accountsChanged"; Listening "chainChanged"]) ++
       [Requested eth_accounts]) = Build_Sys w (wallet s) listening).
  { intros w. unfold listening. now rewrite <- app_assoc. }
  split; [|split].
  - intros eth err w Hq. rewrite Hrun. unfold tryCatch. rewrite bind_unfold.
    rewrite (ethereum_request_some (Some eth) eth _ _ eq_refl).
    cbn [world wallet trace]. rewrite Hq. cbn [fst snd]. rewrite Hl. reflexivity.
  - intros eth w Hq. rewrite Hrun. unfold tryCatch. rewrite bind_unfold.
    rewrite (ethereum_request_some (Some eth) eth _ _ eq_refl).
    cbn [world wallet trace]. rewrite Hq. cbn [fst snd]. rewrite Hl. reflexivity.
  - intros eth first rest w Hq. rewrite Hrun. unfold tryCatch. rewrite bind_unfold.
    rewrite (ethereum_request_some (Some eth) eth _ _ eq_refl).
    cbn [world wallet trace]. rewrite Hq. cbn [fst snd]. rewrite Hl.
    destruct (updateWalletState_run formatEther (Some eth) first None
                (Build_Sys w (wallet s) listening)) as (s' & -> & _).
    reflexivity.
Qed.

(** X16. [setWallet] composes: merging [p] and then [q] is merging their
    overlay (with [q] winning), merging the same record twice is merging it
    once, and merging the empty record changes nothing. *)
Theorem setWallet_composes (p q : PartialWalletState) (s : Sys World) :
  setWallet q (snd (setWallet p s)) = setWallet (overlay p q) s /\
  setWallet p (snd (setWallet p s)) = setWallet p s /\
  setWallet noFields s = (Returned tt, s).
Proof.
  unfold setWallet, setWith, set. cbn [snd world wallet trace].
  rewrite !spread_allFields.
  destruct s as [w [a c i b n v u] t].
  destruct p as [pa pc pi pb pn pv pu], q as [qa qc qi qb qn qv qu].
  cbn. repeat split.
  - destruct qa, qc, qi, qb, qn, qv, qu; reflexivity.
  - destruct pa, pc, pi, pb, pn, pv, pu; reflexivity.
Qed.

End MoreStoreFacts.

(** ** Network lookup, persistence and what is shown *)

Lemma getCurrentNetwork_sound (c : option string) (d : Network.NetworkDescriptor) :
  getCurrentNetwork c = Some d ->
  c = Some (Network.chainId d) /\ exists key, d = Network.NETWORKS key.
Proof.
  unfold getCurrentNetwork.
  destruct (find _ networkKeys) as [key|] eqn:Hf; [|discriminate].
  intros [= <-]. apply find_some in Hf as [_ Heq].
  apply strictEq_spec in Heq. eauto.
Qed.

(** X1. [getCurrentNetwork] is a lookup by chain id: every key is found
    by its own chain id (the three chain ids are distinct); a descriptor
    that comes back is one of the table's and has the chain id asked for;
    null and chain ids the table does not hold give null. *)
Theorem getCurrentNetwork_lookup :
  (forall key,
      getCurrentNetwork (Some (Network.chainId (Network.NETWORKS key))) =
      Some (Network.NETWORKS key)) /\
  (forall k1 k2,
      Network.chainId (Network.NETWORKS k1) = Network.chainId (Network.NETWORKS k2) ->
      k1 = k2) /\
  (forall c d,
      getCurrentNetwork c = Some d ->
      c = Some (Network.chainId d) /\ exists key, d = Network.NETWORKS key) /\
  getCurrentNetwork None = None /\
  (forall c,
      (forall key, Network.chainId (Network.NETWORKS key) <> c) ->
      getCurrentNetwork (Some c) = None).
Proof.
  split; [apply getCurrentNetwork_key|].
  split; [intros [] []; simpl; intros H; try reflexivity; discriminate H|].
  split; [apply getCurrentNetwork_sound|].
  split; [reflexivity|].
  intros c Hnone. destruct (getCurrentNetwork (Some c)) as [d|] eqn:Hd; [|reflexivity].
  apply getCurrentNetwork_sound in Hd as [[= ->] [key ->]]. now elim (Hnone key).
Qed.

(** X17. What [partialize] writes to storage: a connected state as it is;
    for a state that is not connected no wallet data at all, only the
    opt-out flag.  Persisting twice is persisting once, and the three state
    invariants survive it. *)
Theorem partialize_persists (w : WalletState) :
  partialize (partialize w) = partialize w /\
  (isConnected w = true -> partialize w = w) /\
  (isConnected w = false ->
   partialize w =
   {| address := None; chainId := None; isConnected := false; balance := "0";
      ensName := None; ensAvatar := None; userDisconnected := userDisconnected w |}) /\
  (invariant w -> invariant (partialize w)) /\
  (ensOnlyOnMainnet w -> ensOnlyOnMainnet (partialize w)) /\
  (connectedNotOptedOut w -> connectedNotOptedOut (partialize w)).
Proof.
  destruct w as [a c [|] b n v u]; unfold partialize; cbn;
    repeat split; auto; try discriminate.
  - intros _ [H|H]; now elim H.
Qed.

(** X18. The name shown for a connected wallet: the ENS name when there is
    one, else the shortened address.  It is defined whenever
    isConnected == (address != null) holds; with a null address and no ENS
    name the expression throws. *)
Theorem displayName_needs_address (w : WalletState) :
  (invariant w -> isConnected w = true -> exists text, displayName w = Returned text) /\
  (forall n, ensName w = Some n -> JS.truthy n = true -> displayName w = Returned n) /\
  (forall a,
      JS.truthy_opt (ensName w) = false -> address w = Some a ->
      displayName w = Returned (formatAddress a)) /\
  (JS.truthy_opt (ensName w) = false -> address w = None ->
   displayName w = Thrown NullTypeError).
Proof.
  unfold displayName, invariant. destruct w as [a c i b n v u]. cbn.
  split; [|split; [|split]].
  - intros Hinv ->. destruct a as [a|]; [|discriminate].
    destruct n as [[|ch n]|]; cbn; eauto.
  - intros n' -> Ht. now rewrite Ht.
  - intros a' Hn ->. destruct n as [n|]; [|reflexivity]. cbn in Hn. now rewrite Hn.
  - intros Hn ->. destruct n as [n|]; [|reflexivity]. cbn in Hn. now rewrite Hn.
Qed.

(** X19. Network label and currency symbol: for a chain id of the table
    the label is the first word of that network's name and the symbol is
    its currency symbol; the symbol is "BNB" exactly on chain "0x38" and
    "ETH" otherwise, also for a null or unknown chain, where the label is
    the fallback text. *)
Theorem network_labels (w : WalletState) :
  (forall key,
      chainId w = Some (Network.chainId (Network.NETWORKS key)) ->
      networkLabel w = firstWord (Network.chainName (Network.NETWORKS key)) /\
      currencySymbol w = Network.symbol (Network.nativeCurrency (Network.NETWORKS key))) /\
  (currentNetwork w = None ->
   networkLabel w = "未知网络" /\ currencySymbol w = "ETH") /\
  (currencySymbol w = "BNB" <-> chainId w = Some "0x38") /\
  (chainId w <> Some "0x38" -> currencySymbol w = "ETH").
Proof.
  assert (Hkey : forall key,
    chainId w = Some (Network.chainId (Network.NETWORKS key)) ->
    networkLabel w = firstWord (Network.chainName (Network.NETWORKS key)) /\
    currencySymbol w = Network.symbol (Network.nativeCurrency (Network.NETWORKS key))).
  { intros key Hc. unfold networkLabel, currencySymbol, currentNetwork.
    rewrite Hc, getCurrentNetwork_key. destruct key; split; reflexivity. }
  assert (Hnone : currentNetwork w = None ->
                  networkLabel w = "未知网络" /\ currencySymbol w = "ETH").
  { intros Hn. unfold networkLabel, currencySymbol. rewrite Hn. split; reflexivity. }
  assert (Hcases : currentNetwork w = None \/
                   exists key, chainId w = Some (Network.chainId (Network.NETWORKS key))).
  { destruct (currentNetwork w) as [d|] eqn:Hd; [right | now left].
    apply getCurrentNetwork_sound in Hd as [Hc [key ->]]. now exists key. }
  split; [exact Hkey|]. split; [exact Hnone|]. split; [split|].
  - intros Hbnb. destruct Hcases as [Hn|[key Hc]].
    + destruct (Hnone Hn) as [_ Hs]. rewrite Hs in Hbnb. discriminate.
    + destruct (Hkey key Hc) as [_ Hs]. rewrite Hs in Hbnb.
      destruct key; try discriminate. exact Hc.
  - intros Hc. now destruct (Hkey Network.bsc Hc) as [_ ->].
  - intros Hne. destruct Hcases as [Hn|[key Hc]].
    + now destruct (Hnone Hn).
    + destruct (Hkey key Hc) as [_ ->]. destruct key; try reflexivity. now elim Hne.
Qed.

(** ** The sign of a formatted balance *)

Lemma toStringLarge_unsigned (v : Z) (x : Num.Number) (rest : string) :
  Num.toStringLarge v x <> String "-" rest.
Proof.
  unfold Num.toStringLarge.
  destruct (Num.shortest 17 1 _ v x) as [s n'].
  destruct (Num.digits s) as [|d more] eqn:Hd; [discriminate|].
  apply digits_head_is_digit in Hd.
  destruct more; intros [= -> _]; discriminate Hd.
Qed.

Lemma fixedDigits_4_unsigned (n : Z) (rest : string) :
  (0 <= n)%Z -> Num.fixedDigits n 4 <> String "-" rest.
Proof.
  intros Hn H.
  destruct (fixedDigits_4_shape n Hn) as (whole & frac & Heq & Hne & Hw & _).
  rewrite Heq in H. destruct whole as [|d whole]; [now elim Hne|].
  cbn in H, Hw. injection H as -> _. discriminate Hw.
Qed.

Lemma lt_small_values :
  (forall neg, Num.lt (S754_zero neg) Num.lit_0_0001 = true) /\
  (forall m e, Num.lt (S754_finite true m e) Num.lit_0_0001 = true) /\
  Num.lt (S754_infinity true) Num.lit_0_0001 = true /\
  Num.lt (S754_infinity false) Num.lit_0_0001 = false /\
  Num.lt S754_nan Num.lit_0_0001 = false.
Proof. repeat split. Qed.

(** X20. [formatBalance] never shows a minus sign: a negative value, a
    zero of either sign and minus infinity all give "0", and no result
    starts with "-". *)
Theorem formatBalance_unsigned (b : string) :
  (forall rest, formatBalance b <> String "-" rest) /\
  (forall m e, Num.parseFloat b = S754_finite true m e -> formatBalance b = "0") /\
  (forall neg, Num.parseFloat b = S754_zero neg -> formatBalance b = "0") /\
  (Num.parseFloat b = S754_infinity true -> formatBalance b = "0").
Proof.
  destruct lt_small_values as (Hzero & Hneg & Hminf & Hinf & Hnan).
  unfold formatBalance.
  split; [|split; [|split]].
  - intros rest. destruct (Num.parseFloat b) as [neg|[|]| |[|] m e].
    + rewrite Hzero. discriminate.
    + rewrite Hminf. discriminate.
    + rewrite Hinf. cbn [Num.toFixed]. discriminate.
    + rewrite Hnan. cbn [Num.toFixed]. discriminate.
    + rewrite Hneg. discriminate.
    + destruct (Num.lt (S754_finite false m e) Num.lit_0_0001); [discriminate|].
      cbn [Num.toFixed].
      destruct (exact_positive m e) as [Hnum Hden].
      destruct (Num.exact m e) as [num den]. cbn [fst snd] in *.
      destruct (10 ^ 21 * den <=? num)%Z.
      * change ("" ++ Num.toStringLarge num (S754_finite false m e))
          with (Num.toStringLarge num (S754_finite false m e)).
        apply toStringLarge_unsigned.
      * change ("" ++ Num.fixedDigits ((2 * num * 10 ^ Z.of_nat 4 + den) / (2 * den)) 4)
          with (Num.fixedDigits ((2 * num * 10 ^ 4 + den) / (2 * den)) 4).
        apply fixedDigits_4_unsigned.
        now destruct (nearest_multiple num den Hnum Hden).
  - intros m e ->. now rewrite Hneg.
  - intros neg ->. now rewrite Hzero.
  - intros ->. now rewrite Hminf.
Qed.

(** ** The further statements at sample inputs *)

Lemma switchNetwork_adds_unknown_chain_witness :
  (exists later,
      trace (snd (switchNetwork Sample.weiText (Some (Sample.scripted Sample.unknownChain))
                    Network.bsc (Build_Sys 0 (Sample.connectedAs "0xabc") []))) =
      ([Requested (wallet_switchEthereumChain "0x38");
        Requested (wallet_addEthereumChain (Network.NETWORKS Network.bsc))] ++ later)%list) /\
  address (walletAfter
             (switchNetwork Sample.weiText (Some (Sample.scripted Sample.unknownChain))
                Network.bsc) (Build_Sys 0 (Sample.connectedAs "0xabc") [])) = Some "0xabc" /\
  chainId (walletAfter
             (switchNetwork Sample.weiText (Some (Sample.scripted Sample.unknownChain))
                Network.bsc) (Build_Sys 0 (Sample.connectedAs "0xabc") [])) = Some "0x38".
Proof.
  destruct (switchNetwork_adds_unknown_chain Sample.weiText
              (Sample.scripted Sample.unknownChain) Network.bsc
              (Build_Sys 0 (Sample.connectedAs "0xabc") [])
              (Sample.rejected 4902) 1 eq_refl eq_refl) as [Htrace Hadd].
  destruct (Hadd 2 eq_refl) as (_ & _ & _ & Hconn).
  destruct (Hconn "0xabc" eq_refl eq_refl) as (_ & Haddr & Hchain & _).
  exact (conj Htrace (conj Haddr Hchain)).
Defined.

Lemma getCurrentNetwork_lookup_witness :
  getCurrentNetwork (Some "0x38") = Some (Network.NETWORKS Network.bsc) /\
  getCurrentNetwork (Some "0xAA36A7") = None.
Proof.
  destruct getCurrentNetwork_lookup as (Hkey & _ & _ & _ & Hnone).
  split; [exact (Hkey Network.bsc)|].
  apply Hnone. intros []; discriminate.
Defined.

Lemma getBalance_falls_back_witness :
  provider_getBalance (Sample.scripted Scenario.offline) "0xabc" (world Sample.fresh) =
    (Thrown (Sample.rejected (-32603)), 1) /\
  fst (getBalance Sample.weiText (Some (Sample.scripted Scenario.offline)) "0xabc"
         Sample.fresh) = Returned "0".
Proof.
  split; [reflexivity|].
  exact (proj1 (proj2 (proj2 (getBalance_falls_back Sample.weiText
                                (Some (Sample.scripted Scenario.offline)) "0xabc"
                                Sample.fresh)))
           (Sample.scripted Scenario.offline) (Sample.rejected (-32603)) 1 eq_refl eq_refl).
Defined.

Lemma getENSInfo_short_circuits_witness :
  JS.truthy "0x38" = true /\
  getENSInfo (Some (Sample.scripted Sample.granting)) "0xabc" (Some "0x38") Sample.fresh =
    (Returned {| info_ensName := None; info_ensAvatar := None |}, Sample.fresh).
Proof.
  split; [reflexivity|].
  apply (proj2 (getENSInfo_short_circuits (Some (Sample.scripted Sample.granting))
                  "0xabc" Sample.fresh) "0x38" eq_refl).
  discriminate.
Defined.

Lemma updateWalletState_with_chain_witness :
  JS.truthy "0x38" = true /\
  chainId (walletAfter
             (updateWalletState Sample.weiText (@None (Ethereum nat unit)) "0xabc"
                (Some "0x38")) Sample.optedOut) = Some "0x38".
Proof.
  split; [reflexivity|].
  exact (proj1 (proj2 (proj2 (updateWalletState_with_chain Sample.weiText
                                (@None (Ethereum nat unit)) "0xabc" "0x38"
                                Sample.optedOut eq_refl)))).
Defined.

Lemma updateWalletState_queries_chain_witness :
  JS.truthy_opt None = false /\
  request (Sample.scripted Scenario.offline) eth_chainId (world Scenario.connectedSys) =
    (Thrown (Sample.rejected (-32603)), 1) /\
  walletAfter
    (updateWalletState Sample.weiText (Some (Sample.scripted Scenario.offline)) "0xdef" None)
    Scenario.connectedSys = wallet Scenario.connectedSys.
Proof.
  split; [reflexivity|]. split; [reflexivity|].
  unfold walletAfter.
  rewrite (proj1 (proj2 (updateWalletState_queries_chain Sample.weiText
                           (Some (Sample.scripted Scenario.offline)) "0xdef" None
                           Scenario.connectedSys eq_refl))
             (Sample.scripted Scenario.offline) (Sample.rejected (-32603)) 1
             eq_refl eq_refl).
  reflexivity.
Defined.

Lemma only_connectWallet_prompts_witness :
  exists later,
    trace (snd (connectWallet Sample.weiText (Some (Sample.scripted Sample.granting))
                  Sample.fresh)) =
    (trace Sample.fresh ++ Requested eth_requestAccounts :: later)%list.
Proof.
  exact (proj2 (proj2 (proj2 (proj2 (proj2
           (only_connectWallet_prompts Sample.weiText
              (Some (Sample.scripted Sample.granting)) Sample.fresh)))))
           (Sample.scripted Sample.granting) eq_refl).
Defined.

Lemma switchNetwork_failures_witness :
  request (Sample.scripted Sample.declining) (wallet_switchEthereumChain "0x38")
    (world Scenario.connectedSys) = (Thrown (Sample.rejected 4001), 1) /\
  code (Sample.rejected 4001) = Some 4001%Z /\
  walletAfter (switchNetwork Sample.weiText (Some (Sample.scripted Sample.declining))
                 Network.bsc) Scenario.connectedSys = wallet Scenario.connectedSys.
Proof.
  split; [reflexivity|]. split; [reflexivity|].
  unfold walletAfter.
  rewrite (proj1 (proj2 (switchNetwork_failures Sample.weiText Network.bsc
                           Scenario.connectedSys))
             (Sample.scripted Sample.declining) (Sample.rejected 4001) 4001%Z 1
             eq_refl eq_refl ltac:(discriminate)).
  reflexivity.
Defined.

Lemma switchNetwork_direct_witness :
  request (Sample.scripted Sample.granting) (wallet_switchEthereumChain "0x38")
    (world Scenario.connectedSys) = (Returned tt, 1) /\
  currentNetwork
    (walletAfter (switchNetwork Sample.weiText (Some (Sample.scripted Sample.granting))
                    Network.bsc) Scenario.connectedSys) =
  Some (Network.NETWORKS Network.bsc).
Proof.
  split; [reflexivity|].
  destruct (proj2 (switchNetwork_direct Sample.weiText (Sample.scripted Sample.granting)
                     Network.bsc Scenario.connectedSys 1 eq_refl) "0xabc" eq_refl eq_refl)
    as (_ & _ & _ & Hnet & _).
  exact Hnet.
Defined.

Lemma granting_answers_chain_ids :
  answersChainIds (Some (Sample.scripted Sample.granting)).
Proof. intros eth w c w' [= <-] [= <- _]. reflexivity. Qed.

Lemma ens_only_on_mainnet_kept_witness :
  ensOnlyOnMainnet (wallet Scenario.connectedSys) /\
  ensOnlyOnMainnet
    (walletAfter (connectWallet Sample.weiText (Some (Sample.scripted Sample.granting)))
       Scenario.connectedSys).
Proof.
  assert (Hinv : ensOnlyOnMainnet (wallet Scenario.connectedSys)) by (intros _; reflexivity).
  split; [exact Hinv|].
  exact (proj1 (proj2 (ens_only_on_mainnet_kept Sample.weiText
                         (Some (Sample.scripted Sample.granting)) Scenario.connectedSys
                         granting_answers_chain_ids Hinv))).
Defined.

Lemma connected_not_opted_out_kept_witness :
  connectedNotOptedOut (wallet Sample.optedOut) /\
  connectedNotOptedOut
    (walletAfter (connectWallet Sample.weiText (Some (Sample.scripted Sample.granting)))
       Sample.optedOut).
Proof.
  assert (Hinv : connectedNotOptedOut (wallet Sample.optedOut))
    by (intros H; discriminate H).
  split; [exact Hinv|].
  exact (proj1 (proj2 (connected_not_opted_out_kept Sample.weiText
                         (Some (Sample.scripted Sample.granting)) Sample.optedOut Hinv))).
Defined.

Lemma connectWallet_nothing_to_connect_witness :
  request (Sample.scripted Scenario.noAccounts) eth_requestAccounts (world Sample.fresh) =
    (Returned [], 1) /\
  walletAfter (connectWallet Sample.weiText (Some (Sample.scripted Scenario.noAccounts)))
    Sample.fresh = wallet Sample.fresh.
Proof.
  split; [reflexivity|]. unfold walletAfter.
  rewrite (proj2 (connectWallet_nothing_to_connect Sample.weiText Sample.fresh)
             (Sample.scripted Scenario.noAccounts) 1 eq_refl).
  reflexivity.
Defined.

Lemma handleAccountsChanged_accounts_witness :
  address (Sample.connectedAs "0xabc") = Some "0xabc" /\
  walletAfter
    (handleAccountsChanged Sample.weiText (Some (Sample.scripted Sample.granting))
       (Sample.connectedAs "0xabc") ["0xabc"; "0xdef"]) Scenario.connectedSys =
  wallet Scenario.connectedSys.
Proof.
  split; [reflexivity|]. unfold walletAfter.
  rewrite (proj1 (handleAccountsChanged_accounts Sample.weiText
                    (Some (Sample.scripted Sample.granting)) (Sample.connectedAs "0xabc")
                    "0xabc" ["0xdef"] Scenario.connectedSys) eq_refl).
  reflexivity.
Defined.

Lemma handleChainChanged_updates_witness :
  chainId (walletAfter
             (handleChainChanged Sample.weiText (Some (Sample.scripted Sample.granting))
                (Sample.connectedAs "0xabc") "0x38") Scenario.connectedSys) = Some "0x38" /\
  ensName (walletAfter
             (handleChainChanged Sample.weiText (Some (Sample.scripted Sample.granting))
                (Sample.connectedAs "0xabc") "0x38") Scenario.connectedSys) = None.
Proof.
  destruct (proj2 (handleChainChanged_updates Sample.weiText
                     (Some (Sample.scripted Sample.granting)) (Sample.connectedAs "0xabc")
                     "0x38" Scenario.connectedSys)
              "0xabc" eq_refl eq_refl ltac:(discriminate) eq_refl)
    as (_ & _ & Hc & _ & _ & Hens).
  split; [exact Hc|]. apply Hens. discriminate.
Defined.

Lemma mount_fresh_session_witness :
  userDisconnected (wallet Sample.fresh) = false /\
  isConnected (wallet Sample.fresh) = false /\
  walletAfter (mount Sample.weiText (Some (Sample.scripted Scenario.noAccounts)))
    Sample.fresh = wallet Sample.fresh.
Proof.
  split; [reflexivity|]. split; [reflexivity|]. unfold walletAfter.
  rewrite (proj1 (proj2 (proj2 (mount_fresh_session Sample.weiText Sample.fresh
                                  eq_refl eq_refl)))
             (Sample.scripted Scenario.noAccounts) 1 eq_refl).
  reflexivity.
Defined.

Lemma partialize_persists_witness :
  isConnected (wallet Sample.optedOut) = false /\
  partialize (wallet Sample.optedOut) = wallet Sample.optedOut.
Proof.
  split; [reflexivity|].
  rewrite (proj1 (proj2 (proj2 (partialize_persists (wallet Sample.optedOut)))) eq_refl).
  reflexivity.
Defined.

Lemma displayName_needs_address_witness :
  invariant (Sample.connectedAs "0x1234567890abcdef") /\
  exists text, displayName (Sample.connectedAs "0x1234567890abcdef") = Returned text.
Proof.
  assert (Hinv : invariant (Sample.connectedAs "0x1234567890abcdef")) by reflexivity.
  split; [exact Hinv|].
  exact (proj1 (displayName_needs_address (Sample.connectedAs "0x1234567890abcdef"))
           Hinv eq_refl).
Defined.

Lemma network_labels_witness :
  networkLabel (Sample.connectedAs "0xabc") = "Ethereum" /\
  currencySymbol (Sample.connectedAs "0xabc") = "ETH".
Proof.
  exact (proj1 (network_labels (Sample.connectedAs "0xabc")) Network.ethereum eq_refl).
Defined.

Lemma formatBalance_unsigned_witness :
  Num.parseFloat "-12.5" = S754_finite true 7036874417766400 (-49) /\
  formatBalance "-12.5" = "0".
Proof.
  split; [reflexivity|].
  exact (proj1 (proj2 (formatBalance_unsigned "-12.5")) 7036874417766400%positive (-49)%Z
           eq_refl).
Defined.
